(** * CLIP-Field training notebook: masks, zero-shot evaluation, epoch trainer

    Shallow embedding of [zero_shot_eval] and [train] from
    "demo/3 - training a CLIP field.ipynb".

    Conventions.
    - Float tensors have real-number entries ([R]): [1.0] is [1], [np.log] is
      [ln], [torch.exp] is [exp].  Rounding of arithmetic and NaN are outside
      the model; the bound of the temperature clamp is the float32 that the
      code compares against, and the minimum of two floats is exact.
    - Image-source and semantic-label identifiers are integer tensors ([Z]).
    - A batch is the collation of a list of point samples, so every column of
      a batch has the same length.
    - Python exceptions are values of [exn]; a computation that raises keeps
      the mutations it made before raising.
    - The field model, the optimizer, the classifier, [F.cross_entropy] and
      the metric objects are collaborators outside the notebook: they are
      interfaces here.  Their calls return, except that [F.cross_entropy],
      [torch.save] and reading a metric may raise, and so may the tensor
      operations of the notebook itself. *)

From Stdlib Require Import String Reals Lra ZArith Lia Bool Arith List.
Import ListNotations.

Set Implicit Arguments.

(** ** Python exceptions *)

Inductive exn : Type :=
| RuntimeError (msg : string)
| ZeroDivisionError
| IndexError
| OtherError (msg : string).

Inductive outcome (A : Type) : Type :=
| Ok (a : A)
| Raise (e : exn).

Arguments Ok {A} a.
Arguments Raise {A} e.

Definition is_ok {A} (o : outcome A) : bool :=
  match o with Ok _ => true | Raise _ => false end.

(** [except RuntimeError] *)
Definition is_RuntimeError (e : exn) : bool :=
  match e with RuntimeError _ => true | _ => false end.

(** ** Tensor primitives used by the notebook *)

Module Torch.

Definition matrix (A : Type) := list (list A).

Fixpoint zip_with {A B C} (f : A -> B -> C) (xs : list A) (ys : list B) : list C :=
  match xs, ys with
  | x :: xs', y :: ys' => f x y :: zip_with f xs' ys'
  | _, _ => []
  end.

(** [col != col.t()] for a column [col] of shape (N,1): broadcast to (N,N). *)
Definition ne_outer (col : list Z) : matrix bool :=
  map (fun a => map (fun b => negb (Z.eqb a b)) col) col.

(** [.float()] on a boolean tensor. *)
Definition bool_to_float (b : bool) : R := if b then 1%R else 0%R.

Definition float (m : matrix bool) : matrix R := map (map bool_to_float) m.

(** [torch.eye(n)] *)
Definition eye (n : nat) : matrix R :=
  map (fun i => map (fun j => bool_to_float (Nat.eqb i j)) (seq 0 n)) (seq 0 n).

(** Entrywise sum of two tensors of the same shape. *)
Definition add (a b : matrix R) : matrix R := zip_with (zip_with Rplus) a b.

(** Entry (i,j), when it exists. *)
Definition entry {A} (m : matrix A) (i j : nat) : option A :=
  match nth_error m i with
  | Some row => nth_error row j
  | None => None
  end.

(** [torch.clamp(x, max=hi)] on a scalar. *)
Definition clamp_max (x hi : R) : R := Rmin x hi.

(** One-dimensional tensors with their dtype. *)
Inductive tensor1 : Type :=
| BoolTensor (l : list bool)
| LongTensor (l : list Z)
| FloatTensor (l : list R).

(** [torch.zeros_like] keeps the shape and the dtype of its argument. *)
Definition zeros_like (t : tensor1) : tensor1 :=
  match t with
  | BoolTensor l => BoolTensor (map (fun _ => false) l)
  | LongTensor l => LongTensor (map (fun _ => 0%Z) l)
  | FloatTensor l => FloatTensor (map (fun _ => 0%R) l)
  end.

Definition mean_dtype_error : string :=
  "mean(): could not infer output dtype. Input dtype must be either a floating point or complex dtype.".

(** [t.mean(dim=-1)]: defined on floating-point tensors only; on a boolean
    or integer tensor torch raises a RuntimeError. *)
Definition mean (t : tensor1) : outcome R :=
  match t with
  | FloatTensor l => Ok (fold_right Rplus 0%R l / INR (length l))%R
  | BoolTensor _ | LongTensor _ => Raise (RuntimeError mean_dtype_error)
  end.

(** [t != c] and [t < c] against a scalar, and [torch.logical_and]. *)
Definition ne_scalar (t : list Z) (c : Z) : list bool :=
  map (fun x => negb (Z.eqb x c)) t.

Definition lt_scalar (t : list Z) (c : Z) : list bool :=
  map (fun x => Z.ltb x c) t.

Definition logical_and (a b : list bool) : list bool := zip_with andb a b.

(** [torch.any] on a boolean tensor. *)
Definition any (mask : list bool) : bool := existsb (fun b => b) mask.

(** Rows of [xs] at which [mask] is true. *)
Fixpoint select {A} (mask : list bool) (xs : list A) : list A :=
  match mask, xs with
  | m :: mask', x :: xs' => if m then x :: select mask' xs' else select mask' xs'
  | _, _ => []
  end.

(** [xs[mask]]: boolean-mask indexing along the first dimension; the mask
    must have the length of that dimension. *)
Definition index_mask {A} (xs : list A) (mask : list bool) : outcome (list A) :=
  if Nat.eqb (length mask) (length xs) then Ok (select mask xs) else Raise IndexError.

(** [torch.log], entrywise. *)
Definition log (m : matrix R) : matrix R := map (map ln) m.

(** [.long()] on a tensor of integer identifiers. *)
Definition long (l : list Z) : list Z := l.

End Torch.

(** ** Python dictionaries, in insertion order *)

Module Py.

Definition dict (V : Type) := list (string * V).

Fixpoint get {V} (k : string) (d : dict V) : option V :=
  match d with
  | [] => None
  | (k', v) :: d' => if String.eqb k k' then Some v else get k d'
  end.

(** [d[k] = v] *)
Fixpoint set {V} (k : string) (v : V) (d : dict V) : dict V :=
  match d with
  | [] => [(k, v)]
  | (k', v') :: d' =>
      if String.eqb k k' then (k, v) :: d' else (k', v') :: set k v d'
  end.

Definition values {V} (d : dict V) : list V := map snd d.

(** Truth value of [d.get(k)]: false when the key is missing or maps to an
    empty dictionary. *)
Definition truthy {V} (o : option (dict V)) : bool :=
  match o with
  | Some (_ :: _) => true
  | _ => false
  end.

(** [x / n] for a float [x] and an integer count [n]. *)
Definition div (x : R) (n : nat) : outcome R :=
  if Nat.eqb n 0 then Raise ZeroDivisionError else Ok (x / INR n)%R.

End Py.

(** ** State and exception monad *)

Definition M (St A : Type) : Type := St -> outcome A * St.

Definition ret {St A} (a : A) : M St A := fun w => (Ok a, w).

Definition raise {St A} (e : exn) : M St A := fun w => (Raise e, w).

Definition bind {St A B} (m : M St A) (k : A -> M St B) : M St B :=
  fun w =>
    match m w with
    | (Ok a, w') => k a w'
    | (Raise e, w') => (Raise e, w')
    end.

Definition lift {St A} (o : outcome A) : M St A := fun w => (o, w).

Notation "x <- m ;; k" := (bind m (fun x => k))
  (at level 61, m at next level, right associativity).
Notation "m ;;; k" := (bind m (fun _ => k))
  (at level 61, right associativity).

(** [for x in xs: body(x)] *)
Fixpoint for_each {St A} (xs : list A) (body : A -> M St unit) : M St unit :=
  match xs with
  | [] => ret tt
  | x :: xs' => body x ;;; for_each xs' body
  end.

(** A loop that threads the local variables [acc] of its body. *)
Fixpoint for_fold {St A B} (xs : list A) (body : A -> B -> M St B) (acc : B) : M St B :=
  match xs with
  | [] => ret acc
  | x :: xs' => acc' <- body x acc ;; for_fold xs' body acc'
  end.

(** ** Point samples and batches *)

Record Sample : Type := mkSample {
  xyz : R * R * R;
  clip_vector : list R;
  clip_image_vector : list R;
  distance : R;
  semantic_weight : R;
  img_idx : Z;
  label : Z
}.

Definition Batch := list Sample.

(** ** Pairwise masks built by [train] *)

Definition label_mask (index : list Z) (batch_size : nat) : Torch.matrix R :=
  Torch.add (Torch.float (Torch.ne_outer index)) (Torch.eye batch_size).

Definition image_label_index (b : Batch) : list Z := map img_idx b.
Definition language_label_index (b : Batch) : list Z := map label b.

(** [batch_size = len(image_label_index)] *)
Definition batch_size (b : Batch) : nat := length (image_label_index b).

Definition image_label_mask (b : Batch) : Torch.matrix R :=
  label_mask (image_label_index b) (batch_size b).

Definition language_label_mask (b : Batch) : Torch.matrix R :=
  label_mask (language_label_index b) (batch_size b).

(** The matrix of the specification: 1.0 where the identifiers differ,
    0.0 where they are equal, plus the identity. *)
Definition differ_plus_identity (index : list Z) (i j : nat) : R :=
  ((if Z.eqb (nth i index 0%Z) (nth j index 0%Z) then 0 else 1)
   + (if Nat.eqb i j then 1 else 0))%R.

(** ** External collaborators *)

(** Parameters of the field model: the learned temperature is a field of its
    own, the remaining weights are opaque. *)
Record Model (W : Type) : Type := mkModel {
  weights : W;
  temperature : R;
  training : bool
}.

(** [GridCLIPModel]: the forward pass returns (label latents, image latents);
    [compute_loss self predicted actual label_mask weights]. *)
Class FieldModel (W : Type) : Type := {
  forward : Model W -> list (R * R * R) -> Torch.matrix R * Torch.matrix R;
  compute_loss :
    Model W -> Torch.matrix R -> Torch.matrix R -> Torch.matrix R -> list R -> R
}.

(** Autograd and [torch.optim.Optimizer]: the gradient of a scalar, seen as a
    function of the parameters, at the current parameters; accumulation into
    [.grad]; one optimizer step. *)
Class Optimizer (W O G : Type) : Type := {
  gradient : (Model W -> R) -> Model W -> G;
  grad_accumulate : G -> G -> G;
  optim_step : O -> Model W -> option G -> O * Model W
}.

(** [ClassificationExtractor] *)
Class Classifier (C : Type) : Type := {
  total_label_classes : C -> Z;
  calculate_classifications : C -> Torch.matrix R -> Torch.matrix R -> Torch.matrix R
}.

(** [torchmetrics.Metric]: [forward] updates the running state, [compute]
    reads it and may raise, [reset] empties it. *)
Class Metric (S : Type) : Type := {
  metric_forward : S -> Torch.matrix R -> list Z -> S;
  metric_compute : S -> outcome R;
  metric_reset : S -> S
}.

(** [torch.nn.functional]: [cross_entropy input target] is [Ok v] when the
    call returns the number [v]; it raises when a target is not a class
    index of [input]. *)
Class Functional : Type := {
  cross_entropy : Torch.matrix R -> list Z -> outcome R
}.

(** ** Constants of the notebook *)

Definition IMAGE_TO_LABEL_CLIP_LOSS_SCALE : R := 1.
Definition LABEL_TO_IMAGE_LOSS_SCALE : R := 1.
Definition EXP_DECAY_COEFF : R := 1 / 2.

(** Keyword arguments of [train] that have defaults. *)
Record TrainArgs : Type := mkTrainArgs {
  exp_decay_coeff : R;
  image_to_label_loss_ratio : R;
  label_to_image_loss_ratio : R
}.

Definition default_args : TrainArgs :=
  {| exp_decay_coeff := EXP_DECAY_COEFF;
     image_to_label_loss_ratio := IMAGE_TO_LABEL_CLIP_LOSS_SCALE;
     label_to_image_loss_ratio := LABEL_TO_IMAGE_LOSS_SCALE |}.

(** Metric objects are referred to by handle; the same object may be
    registered under several names. *)
Definition handle := nat.

Definition MetricCalculators := Py.dict (Py.dict handle).

(** Local running totals of [train]. *)
Record Totals : Type := mkTotals {
  total_loss : R;
  label_loss : R;
  image_loss : R;
  total_samples : nat;
  total_classification_loss : R
}.

Definition initial_totals : Totals :=
  {| total_loss := 0; label_loss := 0; image_loss := 0;
     total_samples := 0; total_classification_loss := 0 |}.

(** The bound of the clamp: [np.log(100.0)] converted to the float32 of the
    temperature tensor, 9657742 / 2^21 = 4.605170249938965. *)
Definition temperature_max : R := (9657742 / 2097152)%R.

(** Integer arithmetic for bounds on [exp]: repeated squaring of a numerator
    over a fixed denominator [P], rounded down or up. *)
Fixpoint square_down (P : Z) (k : nat) (n : Z) : Z :=
  match k with
  | 0%nat => n
  | Datatypes.S k' => square_down P k' ((n * n) / P)
  end.

Fixpoint square_up (P : Z) (k : nat) (n : Z) : Z :=
  match k with
  | 0%nat => n
  | Datatypes.S k' => square_up P k' ((n * n) / P + 1)
  end.

Fixpoint iter_square (k : nat) (r : R) : R :=
  match k with
  | 0%nat => r
  | Datatypes.S k' => iter_square k' (r * r)
  end.

Definition no_grad_error : string :=
  "element 0 of tensors does not require grad and does not have a grad_fn".

Section Trainer.

Context {W O G S C : Type}.
Context {FM : FieldModel W} {OPT : Optimizer W O G}
        {CLS : Classifier C} {MET : Metric S} {F : Functional}.

(** *** The mutable world *)

Record World : Type := mkWorld {
  model : Model W;
  optim_state : O;
  grads : option G;
  metrics : handle -> S;
  grad_enabled : bool;
  wandb_log : list (Py.dict R)
}.

Definition set_model (m : Model W) (w : World) : World :=
  mkWorld m (optim_state w) (grads w) (metrics w) (grad_enabled w) (wandb_log w).

Definition set_optim_state (o : O) (w : World) : World :=
  mkWorld (model w) o (grads w) (metrics w) (grad_enabled w) (wandb_log w).

Definition set_grads (g : option G) (w : World) : World :=
  mkWorld (model w) (optim_state w) g (metrics w) (grad_enabled w) (wandb_log w).

Definition set_metric (h : handle) (s : S) (w : World) : World :=
  mkWorld (model w) (optim_state w) (grads w)
          (fun h' => if Nat.eqb h' h then s else metrics w h')
          (grad_enabled w) (wandb_log w).

Definition set_grad_enabled (b : bool) (w : World) : World :=
  mkWorld (model w) (optim_state w) (grads w) (metrics w) b (wandb_log w).

Definition wandb_log_call (to_log : Py.dict R) (w : World) : World :=
  mkWorld (model w) (optim_state w) (grads w) (metrics w) (grad_enabled w)
          (wandb_log w ++ [to_log]).

(** *** Tensors and the autograd graph

    A tensor produced while gradient tracking is on remembers how it was
    computed from the parameters; a tensor without [grad_fn] carries no
    gradient. *)

Record Tracked (A : Type) : Type := mkTracked {
  value : A;
  grad_fn : option (Model W -> A)
}.

Definition replay {A} (t : Tracked A) (theta : Model W) : A :=
  match grad_fn t with
  | Some g => g theta
  | None => value t
  end.

Definition requires_grad {A} (t : Tracked A) : bool :=
  match grad_fn t with Some _ => true | None => false end.

(** A tensor operation with one tensor argument. *)
Definition track1 {A B} (f : A -> B) (a : Tracked A) : M World (Tracked B) :=
  fun w =>
    (Ok {| value := f (value a);
           grad_fn := if grad_enabled w && requires_grad a
                      then Some (fun theta => f (replay a theta))
                      else None |}, w).

(** A tensor operation with two tensor arguments. *)
Definition track2 {A B D} (f : A -> B -> D) (a : Tracked A) (b : Tracked B)
  : M World (Tracked D) :=
  fun w =>
    (Ok {| value := f (value a) (value b);
           grad_fn := if grad_enabled w && (requires_grad a || requires_grad b)
                      then Some (fun theta => f (replay a theta) (replay b theta))
                      else None |}, w).

(** A tensor operation with one tensor argument that may raise. *)
Definition track1_outcome {A B} (f : A -> outcome B) (a : Tracked A)
  : M World (Tracked B) :=
  fun w =>
    match f (value a) with
    | Raise e => (Raise e, w)
    | Ok v =>
        (Ok {| value := v;
               grad_fn := if grad_enabled w && requires_grad a
                          then Some (fun theta =>
                                 match f (replay a theta) with
                                 | Ok v' => v'
                                 | Raise _ => v
                                 end)
                          else None |}, w)
    end.

(** [labelling_model(xyzs)] *)
Definition call_model (xyzs : list (R * R * R))
  : M World (Tracked (Torch.matrix R) * Tracked (Torch.matrix R)) :=
  fun w =>
    let gf (proj : Torch.matrix R * Torch.matrix R -> Torch.matrix R) :=
      if grad_enabled w then Some (fun theta => proj (forward theta xyzs)) else None in
    (Ok ({| value := fst (forward (model w) xyzs); grad_fn := gf fst |},
         {| value := snd (forward (model w) xyzs); grad_fn := gf snd |}), w).

(** [labelling_model.compute_loss(predicted, actual, label_mask=, weights=)] *)
Definition call_compute_loss (predicted : Tracked (Torch.matrix R))
           (actual label_mask : Torch.matrix R) (weights : list R)
  : M World (Tracked R) :=
  fun w =>
    (Ok {| value := compute_loss (model w) (value predicted) actual label_mask weights;
           grad_fn := if grad_enabled w
                      then Some (fun theta =>
                             compute_loss theta (replay predicted theta)
                                          actual label_mask weights)
                      else None |}, w).

(** [@torch.no_grad()]: run with gradient tracking off, restore the
    previous mode on return and on exception. *)
Definition no_grad {A} (m : M World A) : M World A :=
  fun w =>
    let prev := grad_enabled w in
    let (r, w') := m (set_grad_enabled false w) in
    (r, set_grad_enabled prev w').

(** [optim.zero_grad(set_to_none=True)] *)
Definition zero_grad : M World unit := fun w => (Ok tt, set_grads None w).

(** [loss.backward()] *)
Definition backward (loss : Tracked R) : M World unit :=
  fun w =>
    match grad_fn loss with
    | None => (Raise (RuntimeError no_grad_error), w)
    | Some f =>
        let g := gradient f (model w) in
        (Ok tt, set_grads (Some match grads w with
                                | None => g
                                | Some g0 => grad_accumulate g0 g
                                end) w)
    end.

(** [optim.step()] *)
Definition step : M World unit :=
  fun w =>
    let (o, m) := optim_step (optim_state w) (model w) (grads w) in
    (Ok tt, set_model m (set_optim_state o w)).

(** [m.temperature.data = torch.clamp(m.temperature.data, max=np.log(100.0))] *)
Definition clamp_temperature : M World unit :=
  fun w =>
    let m := model w in
    (Ok tt, set_model {| weights := weights m;
                         temperature := Torch.clamp_max (temperature m) temperature_max;
                         training := training m |} w).

(** [labelling_model.train()] *)
Definition set_train_mode : M World unit :=
  fun w =>
    let m := model w in
    (Ok tt, set_model {| weights := weights m;
                         temperature := temperature m;
                         training := true |} w).

(** [calculators(masked_class_prob, masked_labels)] *)
Definition call_metric (h : handle) (probs : Torch.matrix R) (labels : list Z)
  : M World unit :=
  fun w => (Ok tt, set_metric h (metric_forward (metrics w h) probs labels) w).

(** [xs[mask]] on a tracked tensor. *)
Definition getitem_mask {A} (xs : Tracked (list A)) (mask : list bool)
  : M World (Tracked (list A)) :=
  _ <- lift (Torch.index_mask (value xs) mask) ;;
  track1 (Torch.select mask) xs.

(** *** [zero_shot_eval] *)

Definition semseg_mask (classifier : C) (language_label_index : list Z) : list bool :=
  Torch.logical_and
    (Torch.ne_scalar language_label_index (-1))
    (Torch.lt_scalar language_label_index (total_label_classes classifier)).

Definition semantic_calculators (metric_calculators : MetricCalculators)
  : Py.dict handle :=
  if Py.truthy (Py.get "semantic" metric_calculators)
  then match Py.get "semantic" metric_calculators with
       | Some d => d
       | None => []
       end
  else [].

Definition zero_shot_eval_body (classifier : C)
           (predicted_label_latents predicted_image_latents : Tracked (Torch.matrix R))
           (language_label_index : list Z)
           (metric_calculators : MetricCalculators) : M World (Tracked R) :=
  class_probs <- track2 (calculate_classifications classifier)
                        predicted_label_latents predicted_image_latents ;;
  let semseg_mask := semseg_mask classifier language_label_index in
  if negb (Torch.any semseg_mask) then
    classification_loss <-
      lift (Torch.mean (Torch.zeros_like (Torch.BoolTensor semseg_mask))) ;;
    ret {| value := classification_loss; grad_fn := None |}
  else
    masked_class_prob <- getitem_mask class_probs semseg_mask ;;
    let masked_labels :=
      Torch.long (Torch.select semseg_mask language_label_index) in
    log_prob <- track1 Torch.log masked_class_prob ;;
    classification_loss <-
      track1_outcome (fun input => cross_entropy input masked_labels) log_prob ;;
    for_each (semantic_calculators metric_calculators)
             (fun item => call_metric (snd item) (value masked_class_prob)
                                      masked_labels) ;;;
    ret classification_loss.

Definition zero_shot_eval (classifier : C)
           (predicted_label_latents predicted_image_latents : Tracked (Torch.matrix R))
           (language_label_index : list Z)
           (metric_calculators : MetricCalculators) : M World (Tracked R) :=
  no_grad (zero_shot_eval_body classifier predicted_label_latents
                               predicted_image_latents language_label_index
                               metric_calculators).

(** *** [train] *)

(** Body of the loop over the batches of the loader. *)
Definition train_batch (classifier : C) (args : TrainArgs)
           (metric_calculators : MetricCalculators)
           (clip_data_dict : Batch) (acc : Totals) : M World Totals :=
  let xyzs := map xyz clip_data_dict in
  let clip_labels := map clip_vector clip_data_dict in
  let clip_image_labels := map clip_image_vector clip_data_dict in
  let image_weights :=
    map (fun s => exp (- exp_decay_coeff args * distance s)) clip_data_dict in
  let label_weights := map semantic_weight clip_data_dict in
  latents <- call_model xyzs ;;
  let predicted_label_latents := fst latents in
  let predicted_image_latents := snd latents in
  contrastive_loss_labels <-
    call_compute_loss predicted_label_latents clip_labels
                      (language_label_mask clip_data_dict) label_weights ;;
  contrastive_loss_images <-
    call_compute_loss predicted_image_latents clip_image_labels
                      (image_label_mask clip_data_dict) image_weights ;;
  classification_loss <-
    zero_shot_eval classifier predicted_label_latents predicted_image_latents
                   (language_label_index clip_data_dict) metric_calculators ;;
  scaled_images <-
    track1 (Rmult (image_to_label_loss_ratio args)) contrastive_loss_images ;;
  scaled_labels <-
    track1 (Rmult (label_to_image_loss_ratio args)) contrastive_loss_labels ;;
  contrastive_loss <- track2 Rplus scaled_images scaled_labels ;;
  zero_grad ;;;
  backward contrastive_loss ;;;
  step ;;;
  clamp_temperature ;;;
  ret {| total_loss := total_loss acc + value contrastive_loss;
         label_loss := label_loss acc + value contrastive_loss_labels;
         image_loss := image_loss acc + value contrastive_loss_images;
         total_samples := total_samples acc + 1;
         total_classification_loss :=
           total_classification_loss acc + value classification_loss |}.

(** The dictionary literal [to_log = {...}]: the averages are evaluated in
    order. *)
Definition epoch_averages (acc : Totals) : M World (Py.dict R) :=
  avg_labels <- lift (Py.div (label_loss acc) (total_samples acc)) ;;
  avg_images <- lift (Py.div (image_loss acc) (total_samples acc)) ;;
  avg_semseg <- lift (Py.div (total_classification_loss acc) (total_samples acc)) ;;
  avg_sum <- lift (Py.div (total_loss acc) (total_samples acc)) ;;
  temp <- (fun w => (Ok (exp (temperature (model w))), w)) ;;
  ret [ ("train_avg/contrastive_loss_labels"%string, avg_labels);
        ("train_avg/contrastive_loss_images"%string, avg_images);
        ("train_avg/semseg_loss"%string, avg_semseg);
        ("train_avg/loss_sum"%string, avg_sum);
        ("train_avg/labelling_temp"%string, temp) ].

Definition metric_key (metric_name : string) : string :=
  ("train_avg/" ++ metric_name)%string.

(** [try: to_log[key] = metric.compute() ... except RuntimeError:
    to_log[key] = 0.0] *)
Definition read_metric (metric_name : string) (metric : handle)
           (to_log : Py.dict R) : M World (Py.dict R) :=
  fun w =>
    match metric_compute (metrics w metric) with
    | Ok v => (Ok (Py.set (metric_key metric_name) v to_log), w)
    | Raise e =>
        if is_RuntimeError e
        then (Ok (Py.set (metric_key metric_name) 0%R to_log), w)
        else (Raise e, w)
    end.

(** [metric.reset()] *)
Definition reset_metric (metric : handle) : M World unit :=
  fun w => (Ok tt, set_metric metric (metric_reset (metrics w metric)) w).

(** Body of the inner loop over [metric_dict.items()]. *)
Definition log_metric (item : string * handle) (to_log : Py.dict R)
  : M World (Py.dict R) :=
  to_log' <- read_metric (fst item) (snd item) to_log ;;
  reset_metric (snd item) ;;;
  ret to_log'.

Definition log_metrics (metric_calculators : MetricCalculators)
           (to_log : Py.dict R) : M World (Py.dict R) :=
  for_fold (Py.values metric_calculators)
           (fun metric_dict to_log => for_fold metric_dict log_metric to_log)
           to_log.

(** The part of [train] after the batch loop. *)
Definition epoch_end (metric_calculators : MetricCalculators) (acc : Totals)
  : M World R :=
  to_log <- epoch_averages acc ;;
  to_log <- log_metrics metric_calculators to_log ;;
  (fun w => (Ok tt, wandb_log_call to_log w)) ;;;
  ret (total_loss acc).

Definition train (clip_train_loader : list Batch) (epoch : Z) (classifier : C)
           (args : TrainArgs) (metric_calculators : MetricCalculators)
  : M World R :=
  set_train_mode ;;;
  acc <- for_fold clip_train_loader
                  (train_batch classifier args metric_calculators)
                  initial_totals ;;
  epoch_end metric_calculators acc.

(** *** Reference descriptions used in the statements *)

Definition set_metrics (st : handle -> S) (w : World) : World :=
  mkWorld (model w) (optim_state w) (grads w) st (grad_enabled w) (wandb_log w).

(** The store after every calculator of [calcs] was called, in order, on
    the same probabilities and labels. *)
Fixpoint apply_metrics (calcs : Py.dict handle) (probs : Torch.matrix R)
         (labels : list Z) (st : handle -> S) : handle -> S :=
  match calcs with
  | [] => st
  | item :: rest =>
      apply_metrics rest probs labels
        (fun h' => if Nat.eqb h' (snd item)
                   then metric_forward (st (snd item)) probs labels
                   else st h')
  end.

(** A sample counts when its identifier is not the sentinel and is below
    the number of label classes. *)
Definition valid_label (classifier : C) (l : Z) : bool :=
  negb (Z.eqb l (-1)) && Z.ltb l (total_label_classes classifier).

(** The two contrastive losses of a batch and their weighted sum, as
    functions of the model parameters. *)
Definition semantic_contrastive_loss (b : Batch) : Model W -> R :=
  fun theta =>
    compute_loss theta (fst (forward theta (map xyz b)))
                 (map clip_vector b) (language_label_mask b)
                 (map semantic_weight b).

Definition visual_contrastive_loss (args : TrainArgs) (b : Batch) : Model W -> R :=
  fun theta =>
    compute_loss theta (snd (forward theta (map xyz b)))
                 (map clip_image_vector b) (image_label_mask b)
                 (map (fun s => exp (- exp_decay_coeff args * distance s)) b).

Definition weighted_contrastive_sum (args : TrainArgs) (b : Batch)
  : Model W -> R :=
  fun theta =>
    (image_to_label_loss_ratio args * visual_contrastive_loss args b theta
     + label_to_image_loss_ratio args * semantic_contrastive_loss b theta)%R.

(** Every (name, metric) pair that the epoch-end loops visit, in order. *)
Definition all_metrics (metric_calculators : MetricCalculators)
  : list (string * handle) :=
  concat (Py.values metric_calculators).

(** The temperature bound. *)
Definition temperature_bounded (w : World) : Prop :=
  (temperature (model w) <= temperature_max
   /\ exp (temperature (model w)) < 100.00001)%R.


(** Worlds that agree on the model, the optimizer and the gradients. *)
Definition same_training_state (w0 w : World) : Prop :=
  model w = model w0 /\ optim_state w = optim_state w0 /\ grads w = grads w0.

Definition clamped (m : Model W) : Model W :=
  {| weights := weights m;
     temperature := Torch.clamp_max (temperature m) temperature_max;
     training := training m |}.

End Trainer.

(** ** What the epoch report records for a metric *)

(** The number written under a metric's key: its value, or 0.0 when reading
    it raises. *)
Definition metric_reading {S : Type} {MET : Metric S} (s : S) : R :=
  match metric_compute s with
  | Ok v => v
  | Raise _ => 0%R
  end.

(** The five averages of the epoch report, with their keys. *)
Definition average_entries {W : Type} (acc : Totals) (m : Model W) : Py.dict R :=
  [ ("train_avg/contrastive_loss_labels"%string,
     (label_loss acc / INR (total_samples acc))%R);
    ("train_avg/contrastive_loss_images"%string,
     (image_loss acc / INR (total_samples acc))%R);
    ("train_avg/semseg_loss"%string,
     (total_classification_loss acc / INR (total_samples acc))%R);
    ("train_avg/loss_sum"%string,
     (total_loss acc / INR (total_samples acc))%R);
    ("train_avg/labelling_temp"%string, exp (temperature m)) ].

(** ** Checkpoints and the training loop of the notebook *)

Definition SAVE_DIRECTORY : string := "../clip_implicit_model".
Definition SAVE_EVERY : Z := 5.
Definition NUM_EPOCHS : Z := 5.

Definition checkpoint_file (save_directory : string) : string :=
  (save_directory ++ "/implicit_scene_label_model_latest.pt")%string.

(** [labelling_model.module]: the model wrapped by a data-parallel wrapper. *)
Class Wrapper (W : Type) : Type := {
  module : Model W -> outcome (Model W)
}.

(** The file system as [torch.save] meets it: [torch_save_error path] is the
    exception raised when [path] cannot be written (its directory does not
    exist), [None] when it can. *)
Class Storage : Type := {
  torch_save_error : string -> option exn
}.

Section Driver.

Context {W O G S C : Type}.
Context {FM : FieldModel W} {OPT : Optimizer W O G}
        {CLS : Classifier C} {MET : Metric S} {F : Functional} {WR : Wrapper W}
        {ST : Storage}.

(** The dictionary handed to [torch.save]: the parameters of the model, the
    state of the optimizer, the epoch. *)
Record Checkpoint : Type := mkCheckpoint {
  ckpt_model : W * R;
  ckpt_optim : O;
  ckpt_epoch : Z
}.

(** The world of [train] together with the files written so far. *)
Record Session : Type := mkSession {
  world : @World W O G S;
  files : Py.dict Checkpoint
}.


Definition in_world {A} (m : M (@World W O G S) A) : M Session A :=
  fun s =>
    let (r, w') := m (world s) in
    (r, {| world := w'; files := files s |}).

(** [model.state_dict()] *)
Definition state_dict (m : Model W) : W * R := (weights m, temperature m).

Definition save (epoch : Z) (save_directory : string) (saving_dataparallel : bool)
  : M Session Z :=
  fun s =>
    let labelling_model := model (world s) in
    match (if saving_dataparallel then module labelling_model
           else Ok labelling_model) with
    | Raise e => (Raise e, s)
    | Ok to_save =>
        let state_dict :=
          {| ckpt_model := state_dict to_save;
             ckpt_optim := optim_state (world s);
             ckpt_epoch := epoch |} in
        match torch_save_error (checkpoint_file save_directory) with
        | Some e => (Raise e, s)
        | None =>
            (Ok 0%Z,
             {| world := world s;
                files := Py.set (checkpoint_file save_directory) state_dict
                                (files s) |})
        end
    end.

(** [a % b] on integers. *)
Definition py_mod (a b : Z) : outcome Z :=
  if Z.eqb b 0 then Raise ZeroDivisionError else Ok (a mod b)%Z.

(** One turn of the [while] loop of the last cell; the value is the new
    [epoch].  The loader yields the batches [clip_train_loader epoch] when it
    is iterated in that epoch. *)
Definition training_turn (clip_train_loader : Z -> list Batch) (classifier : C)
           (metric_calculators : MetricCalculators) (save_every : Z) (epoch : Z)
  : M Session Z :=
  in_world (train (clip_train_loader epoch) epoch classifier default_args
                  metric_calculators) ;;;
  let epoch := (epoch + 1)%Z in
  r <- lift (py_mod epoch save_every) ;;
  (if Z.eqb r 0 then save epoch SAVE_DIRECTORY false ;;; ret tt else ret tt) ;;;
  ret epoch.

(** [while epoch <= NUM_EPOCHS: ...]; [None] when the fuel runs out. *)
Fixpoint training_loop (fuel : nat) (clip_train_loader : Z -> list Batch)
         (classifier : C) (metric_calculators : MetricCalculators)
         (num_epochs save_every : Z) (epoch : Z) : M Session (option Z) :=
  if Z.leb epoch num_epochs then
    match fuel with
    | 0%nat => ret None
    | Datatypes.S fuel' =>
        epoch' <- training_turn clip_train_loader classifier metric_calculators
                                save_every epoch ;;
        training_loop fuel' clip_train_loader classifier metric_calculators
                      num_epochs save_every epoch'
    end
  else ret (Some epoch).

(** The last cell: [epoch = 0; NUM_EPOCHS = 5; while ...]. *)
Definition training_cell (fuel : nat) (clip_train_loader : Z -> list Batch)
           (classifier : C) (metric_calculators : MetricCalculators)
  : M Session (option Z) :=
  training_loop fuel clip_train_loader classifier metric_calculators
                NUM_EPOCHS SAVE_EVERY 0%Z.

(** [count] turns in a row, starting at [epoch]. *)
Fixpoint turns (count : nat) (clip_train_loader : Z -> list Batch)
         (classifier : C) (metric_calculators : MetricCalculators)
         (save_every : Z) (epoch : Z) : M Session Z :=
  match count with
  | 0%nat => ret epoch
  | Datatypes.S count' =>
      epoch' <- training_turn clip_train_loader classifier metric_calculators
                              save_every epoch ;;
      turns count' clip_train_loader classifier metric_calculators
            save_every epoch'
  end.

End Driver.

(** ** A small concrete instance

    One learned parameter (the temperature), a finite-difference gradient,
    plain gradient descent, a two-class classifier that returns one row per
    sample, and a metric that counts the samples it has seen and cannot be
    read before its first update. *)

Module Toy.

Definition with_temperature (t : R) (m : Model unit) : Model unit :=
  {| weights := weights m; temperature := t; training := training m |}.

#[export] Instance field_model : FieldModel unit := {
  forward m xyzs :=
    (map (fun _ => [temperature m]) xyzs, map (fun _ => [temperature m; 0%R]) xyzs);
  compute_loss m predicted actual label_mask weights :=
    (temperature m * fold_right Rplus 0 weights)%R
}.

#[export] Instance optimizer : Optimizer unit nat R := {
  gradient f m := (f (with_temperature (temperature m + 1) m) - f m)%R;
  grad_accumulate := Rplus;
  optim_step o m g :=
    (Datatypes.S o,
     match g with
     | Some d => with_temperature (temperature m - d) m
     | None => m
     end)
}.

#[export] Instance classifier : Classifier Z := {
  total_label_classes c := c;
  calculate_classifications c text image := map (fun _ => [(1 / 2)%R; (1 / 2)%R]) text
}.

Definition never_updated : string := "You have to have determined mode.".

#[export] Instance metric : Metric nat := {
  metric_forward s probs labels := (s + length labels)%nat;
  metric_compute s :=
    if Nat.eqb s 0 then Raise (RuntimeError never_updated) else Ok (INR s);
  metric_reset _ := 0%nat
}.

(** Mean negative log-likelihood over the rows; a target that is not a
    class index of its row raises IndexError.  (The ignore index of torch is
    not part of this instance.) *)
#[export] Instance functional : Functional := {
  cross_entropy input target :=
    if forallb (fun rt => (0 <=? snd rt)%Z
                          && (snd rt <? Z.of_nat (length (fst rt)))%Z)
               (combine input target)
    then Ok (fold_right Rplus 0
               (Torch.zip_with
                  (fun row t => ln (fold_right Rplus 0 (map exp row))
                                - nth (Z.to_nat t) row 0)
                  input target)
             / INR (length input))%R
    else Raise IndexError
}.

Definition sample (image label : Z) : Sample :=
  {| xyz := (0, 0, 0)%R; clip_vector := [1%R]; clip_image_vector := [1%R; 0%R];
     distance := 0%R; semantic_weight := 1%R; img_idx := image; label := label |}.

(** Two samples of image 7: one labelled 0, one unlabeled. *)
Definition batch : Batch := [sample 7 0; sample 7 (-1)].

(** Two unlabeled samples. *)
Definition unlabeled_batch : Batch := [sample 3 (-1); sample 4 (-1)].

(** A sample labelled 0 and one whose identifier is below the sentinel. *)
Definition mislabelled_batch : Batch := [sample 7 0; sample 7 (-2)].

Definition calculators : MetricCalculators :=
  [ ("geometric"%string, [("geometric_accuracy"%string, 0%nat)]);
    ("semantic"%string, [("semantic_accuracy_micro"%string, 1%nat)]) ].

Definition world : @World unit nat R nat :=
  {| model := {| weights := tt; temperature := 5%R; training := false |};
     optim_state := 0%nat;
     grads := None;
     metrics := fun _ => 0%nat;
     grad_enabled := true;
     wandb_log := [] |}.

(** Latents predicted for [batch] from [world], with their graph. *)
Definition label_latents : @Tracked unit (Torch.matrix R) :=
  {| value := fst (forward (model world) (map xyz batch));
     grad_fn := Some (fun m => fst (forward m (map xyz batch))) |}.

Definition image_latents : @Tracked unit (Torch.matrix R) :=
  {| value := snd (forward (model world) (map xyz batch));
     grad_fn := Some (fun m => snd (forward m (map xyz batch))) |}.

#[export] Instance wrapper : Wrapper unit := {
  module m := Ok m
}.

(** Only the directory of the notebook exists. *)
#[export] Instance storage : Storage := {
  torch_save_error path :=
    if String.eqb path (checkpoint_file SAVE_DIRECTORY) then None
    else Some (RuntimeError "Parent directory does not exist.")
}.

(** A world whose temperature is far above the clamp. *)
Definition hot_world : @World unit nat R nat :=
  {| model := {| weights := tt; temperature := 10%R; training := false |};
     optim_state := 0%nat;
     grads := None;
     metrics := fun _ => 0%nat;
     grad_enabled := true;
     wandb_log := [] |}.

Definition loader (epoch : Z) : list Batch := [batch].

(** A metric whose read raises an error that is not a RuntimeError. *)
Definition brittle_metric : Metric nat := {|
  metric_forward s probs labels := (s + length labels)%nat;
  metric_compute s := Raise (OtherError "state is not synchronised");
  metric_reset _ := 0%nat
|}.

(** One metric object registered under two names. *)
Definition aliased_calculators : MetricCalculators :=
  [ ("semantic"%string, [("first"%string, 1%nat); ("second"%string, 1%nat)]) ].

(** Calculators without the key "semantic". *)
Definition geometric_only : MetricCalculators :=
  [ ("geometric"%string, [("geometric_accuracy"%string, 0%nat)]) ].

Definition session : @Session unit nat R nat := mkSession world [].

End Toy.

(** * Lemmas on the tensor primitives *)

Section TorchFacts.

Lemma nth_error_zip_with {A B C} (f : A -> B -> C) xs ys i :
  nth_error (Torch.zip_with f xs ys) i =
  match nth_error xs i, nth_error ys i with
  | Some x, Some y => Some (f x y)
  | _, _ => None
  end.
Proof.
  revert ys i; induction xs as [|x xs IH]; intros [|y ys] [|i]; simpl; auto.
  destruct (nth_error xs i); reflexivity.
Qed.

Lemma nth_error_seq_lt start len i :
  (i < len)%nat -> nth_error (seq start len) i = Some (start + i)%nat.
Proof.
  intros Hi. rewrite nth_error_nth' with (d := 0%nat) by (rewrite length_seq; lia).
  rewrite seq_nth by lia. reflexivity.
Qed.

Lemma entry_eye n i j :
  (i < n)%nat -> (j < n)%nat ->
  Torch.entry (Torch.eye n) i j = Some (Torch.bool_to_float (Nat.eqb i j)).
Proof.
  intros Hi Hj. unfold Torch.entry, Torch.eye.
  rewrite nth_error_map, nth_error_seq_lt by lia. simpl.
  rewrite nth_error_map, nth_error_seq_lt by lia. reflexivity.
Qed.

Lemma entry_ne_outer col i j :
  (i < length col)%nat -> (j < length col)%nat ->
  Torch.entry (Torch.float (Torch.ne_outer col)) i j =
  Some (Torch.bool_to_float (negb (Z.eqb (nth i col 0%Z) (nth j col 0%Z)))).
Proof.
  intros Hi Hj. unfold Torch.entry, Torch.float, Torch.ne_outer.
  rewrite !nth_error_map, (nth_error_nth' col 0%Z Hi). simpl.
  rewrite !nth_error_map, (nth_error_nth' col 0%Z Hj). reflexivity.
Qed.

Lemma entry_add a b i j :
  Torch.entry (Torch.add a b) i j =
  match Torch.entry a i j, Torch.entry b i j with
  | Some x, Some y => Some (x + y)%R
  | _, _ => None
  end.
Proof.
  unfold Torch.entry, Torch.add. rewrite nth_error_zip_with.
  destruct (nth_error a i) as [ra|], (nth_error b i) as [rb|]; auto.
  - apply nth_error_zip_with.
  - destruct (nth_error ra j); reflexivity.
Qed.

Lemma entry_label_mask index i j :
  (i < length index)%nat -> (j < length index)%nat ->
  Torch.entry (label_mask index (length index)) i j =
  Some (differ_plus_identity index i j).
Proof.
  intros Hi Hj. unfold label_mask.
  rewrite entry_add, entry_ne_outer, entry_eye by assumption.
  unfold differ_plus_identity, Torch.bool_to_float.
  destruct (Z.eqb _ _), (Nat.eqb i j); reflexivity.
Qed.

Lemma differ_plus_identity_sym index i j :
  differ_plus_identity index i j = differ_plus_identity index j i.
Proof.
  unfold differ_plus_identity.
  rewrite (Z.eqb_sym (nth i index 0%Z)), (Nat.eqb_sym i j). reflexivity.
Qed.

Lemma differ_plus_identity_diag index i :
  differ_plus_identity index i i = 1%R.
Proof.
  unfold differ_plus_identity. rewrite Z.eqb_refl, Nat.eqb_refl. lra.
Qed.

End TorchFacts.

(** * The pairwise masks *)

Section Masks.

Lemma entry_float_ne_outer_out col i j :
  (length col <= i)%nat \/ (length col <= j)%nat ->
  Torch.entry (Torch.float (Torch.ne_outer col)) i j = None.
Proof.
  intros Hout. unfold Torch.entry, Torch.float, Torch.ne_outer.
  rewrite !nth_error_map.
  destruct (nth_error col i) as [a|] eqn:Ei; simpl; [|reflexivity].
  rewrite !nth_error_map.
  destruct Hout as [Hi|Hj].
  - apply nth_error_None in Hi. congruence.
  - apply nth_error_None in Hj. rewrite Hj. reflexivity.
Qed.

Lemma entry_label_mask_full index i j :
  Torch.entry (label_mask index (length index)) i j =
  if (i <? length index)%nat && (j <? length index)%nat
  then Some (differ_plus_identity index i j)
  else None.
Proof.
  destruct (i <? length index)%nat eqn:Hi; simpl.
  - destruct (j <? length index)%nat eqn:Hj.
    + apply Nat.ltb_lt in Hi, Hj. now apply entry_label_mask.
    + apply Nat.ltb_ge in Hj. unfold label_mask.
      rewrite entry_add, entry_float_ne_outer_out by auto. reflexivity.
  - apply Nat.ltb_ge in Hi. unfold label_mask.
    rewrite entry_add, entry_float_ne_outer_out by auto. reflexivity.
Qed.

Lemma image_label_mask_eq (b : Batch) :
  image_label_mask b = label_mask (image_label_index b) (length (image_label_index b)).
Proof. reflexivity. Qed.

Lemma language_label_mask_eq (b : Batch) :
  language_label_mask b =
  label_mask (language_label_index b) (length (language_label_index b)).
Proof.
  unfold language_label_mask, batch_size, image_label_index, language_label_index.
  now rewrite !length_map.
Qed.

Lemma label_mask_sym index i j :
  Torch.entry (label_mask index (length index)) i j =
  Torch.entry (label_mask index (length index)) j i.
Proof.
  rewrite !entry_label_mask_full, (andb_comm (i <? _)%nat).
  now rewrite differ_plus_identity_sym.
Qed.

Lemma label_mask_equal_ids index i j v :
  i <> j ->
  nth_error index i = Some v ->
  nth_error index j = Some v ->
  Torch.entry (label_mask index (length index)) i j = Some 0%R.
Proof.
  intros Hij Hi Hj.
  assert (Li : (i < length index)%nat) by (apply nth_error_Some; congruence).
  assert (Lj : (j < length index)%nat) by (apply nth_error_Some; congruence).
  rewrite entry_label_mask by assumption. unfold differ_plus_identity.
  rewrite (nth_error_nth _ _ 0%Z Hi), (nth_error_nth _ _ 0%Z Hj), Z.eqb_refl.
  apply Nat.eqb_neq in Hij. rewrite Hij. f_equal. lra.
Qed.

(** C1. For every batch and both label spaces, the mask built by [train] is
    the N×N matrix with 1.0 where the two identifiers differ and 0.0 where
    they are equal, plus the identity; it is symmetric and every diagonal
    entry is exactly 1.0, whatever the identifiers are. *)
Theorem pairwise_mask_spec (b : Batch) :
  let N := length b in
  (forall i j,
      Torch.entry (image_label_mask b) i j =
      if (i <? N)%nat && (j <? N)%nat
      then Some (differ_plus_identity (image_label_index b) i j) else None) /\
  (forall i j,
      Torch.entry (language_label_mask b) i j =
      if (i <? N)%nat && (j <? N)%nat
      then Some (differ_plus_identity (language_label_index b) i j) else None) /\
  (forall i j,
      Torch.entry (image_label_mask b) i j = Torch.entry (image_label_mask b) j i) /\
  (forall i j,
      Torch.entry (language_label_mask b) i j =
      Torch.entry (language_label_mask b) j i) /\
  (forall i, (i < N)%nat ->
      Torch.entry (image_label_mask b) i i = Some 1%R /\
      Torch.entry (language_label_mask b) i i = Some 1%R).
Proof.
  intros N.
  assert (Limg : length (image_label_index b) = N) by apply length_map.
  assert (Llab : length (language_label_index b) = N) by apply length_map.
  rewrite image_label_mask_eq, language_label_mask_eq.
  repeat split; intros.
  - rewrite entry_label_mask_full, Limg. reflexivity.
  - rewrite entry_label_mask_full, Llab. reflexivity.
  - apply label_mask_sym.
  - apply label_mask_sym.
  - rewrite entry_label_mask by lia. now rewrite differ_plus_identity_diag.
  - rewrite entry_label_mask by lia. now rewrite differ_plus_identity_diag.
Qed.

Lemma pairwise_mask_spec_witness :
  Torch.entry (image_label_mask Toy.batch) 1 1 = Some 1%R /\
  Torch.entry (language_label_mask Toy.batch) 1 1 = Some 1%R.
Proof.
  apply (pairwise_mask_spec Toy.batch). simpl. lia.
Defined.

(** C6. Two distinct samples that both carry the sentinel -1 in a label
    space get mask entry 0.0 in that branch, as any two distinct samples
    with equal identifiers do. *)
Theorem sentinel_pair_masked (b : Batch) (i j : nat) :
  i <> j ->
  (forall v,
      nth_error (image_label_index b) i = Some v ->
      nth_error (image_label_index b) j = Some v ->
      Torch.entry (image_label_mask b) i j = Some 0%R) /\
  (forall v,
      nth_error (language_label_index b) i = Some v ->
      nth_error (language_label_index b) j = Some v ->
      Torch.entry (language_label_mask b) i j = Some 0%R) /\
  (nth_error (image_label_index b) i = Some (-1)%Z ->
   nth_error (image_label_index b) j = Some (-1)%Z ->
   Torch.entry (image_label_mask b) i j = Some 0%R) /\
  (nth_error (language_label_index b) i = Some (-1)%Z ->
   nth_error (language_label_index b) j = Some (-1)%Z ->
   Torch.entry (language_label_mask b) i j = Some 0%R).
Proof.
  intros Hij.
  rewrite image_label_mask_eq, language_label_mask_eq.
  repeat split; intros; eapply label_mask_equal_ids; eauto.
Qed.

Lemma sentinel_pair_masked_witness :
  Torch.entry (language_label_mask Toy.unlabeled_batch) 0 1 = Some 0%R.
Proof.
  apply (sentinel_pair_masked Toy.unlabeled_batch (i := 0) (j := 1));
    [ lia | reflexivity | reflexivity ].
Defined.

End Masks.

(** * The zero-shot evaluator *)

Section Evaluator.

Context {W O G S C : Type}.
Context {FM : FieldModel W} {OPT : Optimizer W O G}
        {CLS : Classifier C} {MET : Metric S} {F : Functional}.

Local Abbreviation World := (@World W O G S).
Local Abbreviation Tracked := (@Tracked W).

Lemma set_metrics_same (w : World) : set_metrics (metrics w) w = w.
Proof. destruct w; reflexivity. Qed.

Lemma for_each_call_metric calcs probs labels (w : World) :
  for_each calcs (fun item => call_metric (snd item) probs labels) w =
  (Ok tt, set_metrics (apply_metrics calcs probs labels (metrics w)) w).
Proof.
  revert w. induction calcs as [|item rest IH]; intros w; simpl.
  - unfold ret. now rewrite set_metrics_same.
  - unfold bind. simpl. rewrite IH. reflexivity.
Qed.

Lemma apply_metrics_frame calcs probs labels (st : handle -> S) h :
  ~ In h (Py.values calcs) ->
  apply_metrics calcs probs labels st h = st h.
Proof.
  revert st. induction calcs as [|item rest IH]; intros st Hh; simpl in *.
  - reflexivity.
  - rewrite IH by tauto.
    destruct (Nat.eqb_spec h (snd item)) as [->|]; [tauto | reflexivity].
Qed.

Lemma semseg_mask_map (c : C) lli :
  semseg_mask c lli = map (valid_label c) lli.
Proof.
  unfold semseg_mask, Torch.logical_and, Torch.ne_scalar, Torch.lt_scalar.
  induction lli as [|l lli IH]; simpl; [reflexivity | now rewrite IH].
Qed.

Lemma valid_label_iff (c : C) l :
  valid_label c l = true <-> (l <> -1 /\ l < total_label_classes c)%Z.
Proof.
  unfold valid_label. rewrite andb_true_iff, negb_true_iff, Z.eqb_neq, Z.ltb_lt.
  tauto.
Qed.

Lemma any_semseg_mask_false (c : C) lli :
  Torch.any (semseg_mask c lli) = false <->
  Forall (fun l => l = -1 \/ total_label_classes c <= l)%Z lli.
Proof.
  rewrite semseg_mask_map. unfold Torch.any.
  induction lli as [|l lli IH]; simpl.
  - split; auto.
  - rewrite orb_false_iff, IH. split.
    + intros [Hl Hr]. constructor; [|assumption].
      destruct (Z.eq_dec l (-1)); [now left | right].
      destruct (Z.lt_ge_cases l (total_label_classes c)); [|assumption].
      assert (valid_label c l = true) by (apply valid_label_iff; auto).
      congruence.
    + intros Hall. inversion Hall as [|? ? Hl Hr]; subst. split; [|assumption].
      destruct (valid_label c l) eqn:E; [|reflexivity].
      apply valid_label_iff in E. lia.
Qed.

Lemma any_semseg_mask_true (c : C) lli :
  Torch.any (semseg_mask c lli) = true <->
  Exists (fun l => l <> -1 /\ l < total_label_classes c)%Z lli.
Proof.
  rewrite semseg_mask_map. unfold Torch.any.
  rewrite existsb_exists, Exists_exists. split.
  - intros (b & Hin & Hb). subst b. apply in_map_iff in Hin.
    destruct Hin as (l & Hl & Hin). exists l. split; [assumption|].
    now apply valid_label_iff.
  - intros (l & Hin & Hl). exists true. split; [|reflexivity].
    apply in_map_iff. exists l. split; [|assumption]. now apply valid_label_iff.
Qed.

(** What [zero_shot_eval] does, case by case. *)
Lemma zero_shot_eval_spec (c : C) (pl pi : Tracked (Torch.matrix R))
      lli mc (w : World) :
  let probs := calculate_classifications c (value pl) (value pi) in
  let mask := semseg_mask c lli in
  zero_shot_eval c pl pi lli mc w =
  if negb (Torch.any mask) then (Raise (RuntimeError Torch.mean_dtype_error), w)
  else if Nat.eqb (length mask) (length probs)
  then match cross_entropy (Torch.log (Torch.select mask probs))
                           (Torch.long (Torch.select mask lli)) with
       | Ok v =>
           (Ok {| value := v; grad_fn := None |},
            set_metrics (apply_metrics (semantic_calculators mc)
                                       (Torch.select mask probs)
                                       (Torch.long (Torch.select mask lli))
                                       (metrics w)) w)
       | Raise e => (Raise e, w)
       end
  else (Raise IndexError, w).
Proof.
  intros probs mask.
  unfold zero_shot_eval, no_grad, zero_shot_eval_body, bind, track2. simpl.
  fold probs. fold mask.
  destruct (Torch.any mask); simpl.
  - unfold getitem_mask, bind, lift, Torch.index_mask. simpl. fold probs.
    destruct (Nat.eqb (length mask) (length probs)); simpl.
    + unfold track1_outcome. simpl.
      destruct (cross_entropy _ _) as [v|e]; simpl.
      * rewrite for_each_call_metric. simpl. destruct w; reflexivity.
      * destruct w; reflexivity.
    + destruct w; reflexivity.
  - destruct w; reflexivity.
Qed.

End Evaluator.

(** * The batch step of [train] *)

Section BatchStep.

Context {W O G S C : Type}.
Context {FM : FieldModel W} {OPT : Optimizer W O G}
        {CLS : Classifier C} {MET : Metric S} {F : Functional}.

Local Abbreviation World := (@World W O G S).

(** What one iteration of the batch loop does, case by case. *)
Lemma train_batch_spec (c : C) args mc (b : Batch) acc (w : World) :
  let lli := language_label_index b in
  let latents := forward (model w) (map xyz b) in
  let probs := calculate_classifications c (fst latents) (snd latents) in
  let mask := semseg_mask c lli in
  let w1 := set_metrics (apply_metrics (semantic_calculators mc)
                                       (Torch.select mask probs)
                                       (Torch.long (Torch.select mask lli))
                                       (metrics w)) w in
  train_batch c args mc b acc w =
  if negb (Torch.any mask) then (Raise (RuntimeError Torch.mean_dtype_error), w)
  else if negb (Nat.eqb (length mask) (length probs)) then (Raise IndexError, w)
  else
    match cross_entropy (Torch.log (Torch.select mask probs))
                        (Torch.long (Torch.select mask lli)) with
    | Raise e => (Raise e, w)
    | Ok classification_loss =>
        if negb (grad_enabled w)
        then (Raise (RuntimeError no_grad_error), set_grads None w1)
        else
          let g := gradient (weighted_contrastive_sum args b) (model w) in
          let om := optim_step (optim_state w) (model w) (Some g) in
          (Ok {| total_loss :=
                   total_loss acc + weighted_contrastive_sum args b (model w);
                 label_loss :=
                   label_loss acc
                   + compute_loss (model w) (fst latents) (map clip_vector b)
                                  (language_label_mask b) (map semantic_weight b);
                 image_loss :=
                   image_loss acc
                   + compute_loss (model w) (snd latents) (map clip_image_vector b)
                                  (image_label_mask b)
                                  (map (fun s =>
                                          exp (- exp_decay_coeff args * distance s)) b);
                 total_samples := total_samples acc + 1;
                 total_classification_loss :=
                   total_classification_loss acc + classification_loss |},
           mkWorld (clamped (snd om)) (fst om) (Some g) (metrics w1)
                   (grad_enabled w) (wandb_log w))
    end.
Proof.
  intros lli latents probs mask w1.
  unfold train_batch, bind, call_model, call_compute_loss. simpl.
  rewrite zero_shot_eval_spec. simpl.
  fold lli. fold latents. fold probs. fold mask.
  destruct (Torch.any mask); simpl; [|reflexivity].
  destruct (Nat.eqb (length mask) (length probs)); simpl; [|reflexivity].
  destruct (cross_entropy _ _) as [ce|e]; simpl; [|reflexivity].
  unfold track1, track2, zero_grad, backward, step, clamp_temperature. simpl.
  destruct (grad_enabled w) eqn:Eg; simpl.
  - fold w1.
    change (fun theta : Model W => _) with (weighted_contrastive_sum args b).
    destruct (optim_step (optim_state w) (model w)
                (Some (gradient (weighted_contrastive_sum args b) (model w))))
      as [o m] eqn:Eo.
    unfold ret, w1, set_model, set_optim_state, set_grads, set_metrics, clamped.
    cbn [model optim_state grads metrics grad_enabled wandb_log fst snd].
    rewrite Eg. reflexivity.
  - reflexivity.
Qed.

End BatchStep.

(** * Properties of the zero-shot evaluator *)

Section EvaluatorProperties.

Context {W O G S C : Type}.
Context {FM : FieldModel W} {OPT : Optimizer W O G}
        {CLS : Classifier C} {MET : Metric S} {F : Functional}.

Local Abbreviation World := (@World W O G S).
Local Abbreviation Tracked := (@Tracked W).

Lemma select_map_filter {A} (p : A -> bool) (xs : list A) :
  Torch.select (map p xs) xs = filter p xs.
Proof.
  induction xs as [|x xs IH]; simpl; [reflexivity|].
  destruct (p x); now rewrite IH.
Qed.

Lemma semseg_mask_length (c : C) lli : length (semseg_mask c lli) = length lli.
Proof. rewrite semseg_mask_map. apply length_map. Qed.

(** C2. On a batch in which no label is valid, [zero_shot_eval] does not
    return a loss: taking the mean of the boolean tensor
    [zeros_like(semseg_mask)] raises a RuntimeError.  No metric accumulator
    (indeed nothing in the world) changes, and the batch step of [train]
    stops with the same exception. *)
Theorem zero_shot_eval_no_valid_label_raises
        (c : C) (pl pi : Tracked (Torch.matrix R)) lli mc (w : World) :
  Forall (fun l => l = -1 \/ total_label_classes c <= l)%Z lli ->
  zero_shot_eval c pl pi lli mc w = (Raise (RuntimeError Torch.mean_dtype_error), w) /\
  forall args (b : Batch) acc,
    language_label_index b = lli ->
    train_batch c args mc b acc w = (Raise (RuntimeError Torch.mean_dtype_error), w).
Proof.
  intros Hall. apply any_semseg_mask_false in Hall. split.
  - rewrite zero_shot_eval_spec, Hall. reflexivity.
  - intros args b acc Hb. rewrite train_batch_spec, Hb, Hall. reflexivity.
Qed.


(** C8. [zero_shot_eval] changes no accumulator other than those registered
    under the key "semantic": every other object, whatever key of
    [metric_calculators] it is registered under, keeps its state. *)
Theorem zero_shot_eval_updates_semantic_only
        (c : C) (pl pi : Tracked (Torch.matrix R)) lli mc (w : World) (h : handle) :
  ~ In h (Py.values (semantic_calculators mc)) ->
  metrics (snd (zero_shot_eval c pl pi lli mc w)) h = metrics w h /\
  forall key d name,
    key <> "semantic"%string ->
    Py.get key mc = Some d ->
    In (name, h) d ->
    metrics (snd (zero_shot_eval c pl pi lli mc w)) h = metrics w h.
Proof.
  intros Hh.
  assert (Hframe : metrics (snd (zero_shot_eval c pl pi lli mc w)) h = metrics w h).
  { rewrite zero_shot_eval_spec.
    destruct (negb _); [reflexivity|].
    destruct (Nat.eqb _ _); [|reflexivity].
    destruct (cross_entropy _ _); [|reflexivity].
    simpl. now apply apply_metrics_frame. }
  split; [assumption | intros; assumption].
Qed.

(** C9. [zero_shot_eval] runs with gradient tracking off: it leaves the model
    parameters, the optimizer and the gradients as they were, the embeddings
    predicted from the parameters are the same after it, the loss it returns
    has no [grad_fn] (calling [backward] on it raises), and the parameter
    update of a batch step does not depend on the classifier or on the metric
    calculators. *)
Theorem zero_shot_eval_no_grad
        (c : C) (pl pi : Tracked (Torch.matrix R)) lli mc (w : World) :
  let r := zero_shot_eval c pl pi lli mc w in
  model (snd r) = model w /\
  optim_state (snd r) = optim_state w /\
  grads (snd r) = grads w /\
  grad_enabled (snd r) = grad_enabled w /\
  (forall xyzs, fst (call_model xyzs (snd r)) = fst (call_model xyzs w)) /\
  (forall loss, fst r = Ok loss ->
                grad_fn loss = None /\
                fst (backward loss (snd r)) = Raise (RuntimeError no_grad_error)) /\
  (forall c2 mc2 args (b : Batch) acc,
      is_ok (fst (train_batch c args mc b acc w)) = true ->
      is_ok (fst (train_batch c2 args mc2 b acc w)) = true ->
      model (snd (train_batch c args mc b acc w)) =
      model (snd (train_batch c2 args mc2 b acc w)) /\
      optim_state (snd (train_batch c args mc b acc w)) =
      optim_state (snd (train_batch c2 args mc2 b acc w)) /\
      grads (snd (train_batch c args mc b acc w)) =
      grads (snd (train_batch c2 args mc2 b acc w))).
Proof.
  intros r. subst r.
  assert (Hw : model (snd (zero_shot_eval c pl pi lli mc w)) = model w /\
               optim_state (snd (zero_shot_eval c pl pi lli mc w)) = optim_state w /\
               grads (snd (zero_shot_eval c pl pi lli mc w)) = grads w /\
               grad_enabled (snd (zero_shot_eval c pl pi lli mc w)) = grad_enabled w).
  { rewrite zero_shot_eval_spec.
    destruct (negb _); [auto|]. destruct (Nat.eqb _ _); simpl; auto.
    destruct (cross_entropy _ _); simpl; auto. }
  destruct Hw as (Hm & Ho & Hg & He).
  split; [exact Hm|]. split; [exact Ho|]. split; [exact Hg|]. split; [exact He|].
  split; [|split].
  - intros xyzs. unfold call_model. simpl. now rewrite Hm, He.
  - intros loss. rewrite zero_shot_eval_spec.
    destruct (negb _); [discriminate|]. destruct (Nat.eqb _ _); [|discriminate].
    destruct (cross_entropy _ _); [|discriminate].
    simpl. intros [= <-]. split; reflexivity.
  - intros c2 mc2 args b acc. rewrite !train_batch_spec.
    repeat (destruct (negb (Torch.any _)); [discriminate|]).
    repeat (destruct (negb (Nat.eqb _ _)); [discriminate|]).
    repeat (destruct (cross_entropy _ _); [|discriminate]).
    repeat (destruct (negb _); [discriminate|]).
    intros _ _. repeat split.
Qed.

(** Without the decorator the same computation keeps the graph: the loss of
    the undecorated body requires grad as soon as an input does. *)
Lemma zero_shot_eval_body_tracks
      (c : C) (pl pi : Tracked (Torch.matrix R)) lli mc (w : World) :
  grad_enabled w = true ->
  requires_grad pl = true ->
  is_ok (fst (zero_shot_eval_body c pl pi lli mc w)) = true ->
  exists loss,
    fst (zero_shot_eval_body c pl pi lli mc w) = Ok loss /\
    requires_grad loss = true.
Proof.
  intros Hg Hpl.
  unfold zero_shot_eval_body, bind, track2, getitem_mask, lift, Torch.index_mask.
  simpl. rewrite Hg, Hpl. simpl.
  destruct (Torch.any _); simpl; [|discriminate].
  destruct (Nat.eqb _ _); simpl; [|discriminate].
  rewrite Hg. simpl. unfold track1_outcome. simpl.
  destruct (cross_entropy _ _); simpl; [|discriminate].
  rewrite for_each_call_metric. simpl.
  intros _. eexists. split; [reflexivity|].
  unfold requires_grad. simpl. now rewrite Hg.
Qed.

End EvaluatorProperties.

(** * The bound of the clamp

    [temperature_max] is the float32 nearest to ln 100 and lies above it:
    100 < exp temperature_max < 100.00001. *)

Section ClampBound.

Local Open Scope R_scope.

Lemma iter_square_exp k x : iter_square k (exp x) = exp (x * 2 ^ k).
Proof.
  revert x. induction k as [|k IH]; intros x; simpl.
  - f_equal. lra.
  - rewrite <- exp_plus, IH. f_equal. lra.
Qed.

Lemma IZR_div_floor (P n : Z) :
  (0 < P)%Z -> IZR (n / P) <= IZR n / IZR P.
Proof.
  intros HP. assert (HPR : 0 < IZR P) by now apply IZR_lt.
  apply Rmult_le_reg_r with (IZR P); [assumption|].
  unfold Rdiv. rewrite Rmult_assoc, Rinv_l, Rmult_1_r by lra.
  rewrite <- mult_IZR. apply IZR_le.
  pose proof (Z.mul_div_le n P HP). lia.
Qed.

Lemma IZR_div_ceil (P n : Z) :
  (0 < P)%Z -> IZR n / IZR P <= IZR (n / P + 1).
Proof.
  intros HP. assert (HPR : 0 < IZR P) by now apply IZR_lt.
  apply Rmult_le_reg_r with (IZR P); [assumption|].
  unfold Rdiv. rewrite Rmult_assoc, Rinv_l, Rmult_1_r by lra.
  rewrite <- mult_IZR. apply IZR_le.
  pose proof (Z.mod_pos_bound n P HP). pose proof (Z.div_mod n P). nia.
Qed.

Lemma square_down_le (P : Z) k n r :
  (0 < P)%Z -> (0 <= n)%Z ->
  IZR n / IZR P <= r ->
  IZR (square_down P k n) / IZR P <= iter_square k r.
Proof.
  intros HP. assert (HPR : 0 < IZR P) by now apply IZR_lt.
  revert n r. induction k as [|k IH]; intros n r Hn Hr; simpl; [assumption|].
  apply IH.
  - apply Z.div_pos; nia.
  - assert (H0 : 0 <= IZR n / IZR P).
    { apply Rmult_le_pos; [now apply IZR_le | left; now apply Rinv_0_lt_compat]. }
    apply Rle_trans with (IZR n / IZR P * (IZR n / IZR P)); [|nra].
    apply Rle_trans with (IZR (n * n) / IZR P / IZR P).
    + apply Rmult_le_compat_r; [left; now apply Rinv_0_lt_compat|].
      now apply IZR_div_floor.
    + rewrite mult_IZR. right. field. lra.
Qed.

Lemma square_up_ge (P : Z) k n r :
  (0 < P)%Z -> (0 <= n)%Z ->
  0 <= r <= IZR n / IZR P ->
  iter_square k r <= IZR (square_up P k n) / IZR P.
Proof.
  intros HP. assert (HPR : 0 < IZR P) by now apply IZR_lt.
  revert n r. induction k as [|k IH]; intros n r Hn Hr; simpl; [apply Hr|].
  apply IH.
  - assert (0 <= n * n / P)%Z by (apply Z.div_pos; nia). lia.
  - split; [nra|].
    apply Rle_trans with (IZR n / IZR P * (IZR n / IZR P)); [nra|].
    apply Rle_trans with (IZR (n * n) / IZR P / IZR P).
    + rewrite mult_IZR. right. field. lra.
    + apply Rmult_le_compat_r; [left; now apply Rinv_0_lt_compat|].
      now apply IZR_div_ceil.
Qed.

(** [exp (a / d * 2^k)] from below, through [1 + x <= exp x] at [x = a / d]. *)
Lemma exp_scaled_lower (a d c : Z) (k : nat) :
  (0 <= a)%Z -> (0 < d)%Z -> (0 < c)%Z ->
  IZR (square_down (d * c) k ((d + a) * c)) / IZR (d * c)
  <= exp (IZR a / IZR d * 2 ^ k).
Proof.
  intros Ha Hd Hc.
  assert (HdR : 0 < IZR d) by now apply IZR_lt.
  assert (HcR : 0 < IZR c) by now apply IZR_lt.
  rewrite <- iter_square_exp. apply square_down_le; [nia | nia |].
  apply Rle_trans with (1 + IZR a / IZR d); [|apply exp_ineq1_le].
  rewrite !mult_IZR, plus_IZR. right. field. lra.
Qed.

(** [exp (a / d * 2^k)] from above, through [exp x <= 1 / (1 - x)]. *)
Lemma exp_scaled_upper (a d u : Z) (P : Z) (k : nat) :
  (0 <= a < d)%Z -> (0 < P)%Z -> (0 <= u)%Z ->
  (d * P <= u * (d - a))%Z ->
  exp (IZR a / IZR d * 2 ^ k) <= IZR (square_up P k u) / IZR P.
Proof.
  intros Ha HP Hu Hcross.
  assert (HdR : 0 < IZR d) by (apply IZR_lt; lia).
  assert (HPR : 0 < IZR P) by now apply IZR_lt.
  assert (Hda : 0 < IZR d - IZR a) by (rewrite <- minus_IZR; apply IZR_lt; lia).
  rewrite <- iter_square_exp. apply square_up_ge; [assumption | assumption |].
  split; [left; apply exp_pos|].
  set (x := IZR a / IZR d).
  assert (Hx : 1 - x = (IZR d - IZR a) / IZR d) by (unfold x; field; lra).
  assert (H1x : 0 < 1 - x).
  { rewrite Hx. apply Rmult_lt_0_compat; [assumption | now apply Rinv_0_lt_compat]. }
  assert (Hexp : exp x <= / (1 - x)).
  { pose proof (exp_ineq1_le (- x)) as Hm. rewrite exp_Ropp in Hm.
    replace (exp x) with (/ / exp x) by (apply Rinv_inv).
    apply Rinv_le_contravar; [lra | lra]. }
  apply Rle_trans with (/ (1 - x)); [assumption|].
  rewrite Hx. apply Rmult_le_reg_r with ((IZR d - IZR a) / IZR d);
    [apply Rmult_lt_0_compat; [assumption | now apply Rinv_0_lt_compat]|].
  rewrite Rinv_l by (rewrite <- Hx; lra).
  apply Rmult_le_reg_r with (IZR P * IZR d); [nra|].
  replace (IZR u / IZR P * ((IZR d - IZR a) / IZR d) * (IZR P * IZR d))
    with (IZR u * (IZR d - IZR a)) by (field; lra).
  rewrite Rmult_1_l, <- minus_IZR, <- !mult_IZR. apply IZR_le. lia.
Qed.

Lemma temperature_max_scaled :
  temperature_max = IZR 9657742 / IZR (2 ^ 61) * 2 ^ 40.
Proof.
  unfold temperature_max. rewrite (pow_IZR 2 40).
  replace (IZR (2 ^ 61)) with (IZR 2097152 * IZR (2 ^ Z.of_nat 40))
    by (rewrite <- mult_IZR; f_equal).
  field. apply not_0_IZR. discriminate.
Qed.

Lemma exp_temperature_max_gt : 100 < exp temperature_max.
Proof.
  rewrite temperature_max_scaled.
  eapply Rlt_le_trans; [|apply (@exp_scaled_lower 9657742%Z (2 ^ 61)%Z (2 ^ 39)%Z 40%nat); lia].
  apply Rmult_lt_reg_r with (IZR (2 ^ 61 * 2 ^ 39)); [apply IZR_lt; reflexivity|].
  unfold Rdiv. rewrite Rmult_assoc, Rinv_l, Rmult_1_r
    by (apply not_0_IZR; discriminate).
  rewrite <- mult_IZR. apply IZR_lt. vm_compute. reflexivity.
Qed.

Lemma exp_temperature_max_lt : exp temperature_max < 100.00001.
Proof.
  rewrite temperature_max_scaled.
  set (P := (2 ^ 100)%Z).
  set (u := ((2 ^ 61 * P) / (2 ^ 61 - 9657742) + 1)%Z).
  eapply Rle_lt_trans.
  - apply (@exp_scaled_upper 9657742%Z (2 ^ 61)%Z u P 40%nat); try (vm_compute; intuition discriminate).
  - apply Rmult_lt_reg_r with (IZR P); [apply IZR_lt; reflexivity|].
    unfold Rdiv. rewrite Rmult_assoc, Rinv_l, Rmult_1_r
      by (apply not_0_IZR; discriminate).
    apply Rmult_lt_reg_l with 100000; [lra|].
    replace (100000 * (100.00001 * IZR P)) with (IZR (10000001 * P))
      by (rewrite mult_IZR; lra).
    rewrite <- mult_IZR. apply IZR_lt. vm_compute. reflexivity.
Qed.

Lemma ln_100_lt_temperature_max : ln 100 < temperature_max.
Proof.
  apply exp_lt_inv. rewrite exp_ln by lra. apply exp_temperature_max_gt.
Qed.

Lemma temperature_max_near_ln_100 :
  ln 100 < temperature_max < ln 100 + 1 / 10000000.
Proof.
  split; [apply ln_100_lt_temperature_max|].
  apply exp_lt_inv. rewrite exp_plus, exp_ln by lra.
  apply Rlt_le_trans with (1 := exp_temperature_max_lt).
  pose proof (exp_ineq1_le (1 / 10000000)). nra.
Qed.

Lemma exp_clamp_max (t : R) :
  Torch.clamp_max t temperature_max <= temperature_max
  /\ exp (Torch.clamp_max t temperature_max) < 100.00001.
Proof.
  unfold Torch.clamp_max.
  assert (Hle : Rmin t temperature_max <= temperature_max) by apply Rmin_r.
  split; [assumption|].
  apply Rle_lt_trans with (2 := exp_temperature_max_lt).
  destruct Hle as [Hlt|Heq].
  - left. now apply exp_increasing.
  - rewrite Heq. right. reflexivity.
Qed.

Lemma clamp_max_below (t : R) :
  t <= ln 100 ->
  Torch.clamp_max t temperature_max = t /\ exp t <= 100.
Proof.
  intros Ht. pose proof ln_100_lt_temperature_max as Hb. split.
  - unfold Torch.clamp_max. apply Rmin_left. lra.
  - rewrite <- (exp_ln 100) by lra.
    destruct Ht as [Hlt|Heq].
    + left. now apply exp_increasing.
    + rewrite Heq. right. reflexivity.
Qed.

Lemma clamp_max_binds (t : R) :
  temperature_max <= t ->
  Torch.clamp_max t temperature_max = temperature_max
  /\ ln 100 < Torch.clamp_max t temperature_max
  /\ 100 < exp (Torch.clamp_max t temperature_max).
Proof.
  intros Ht.
  assert (E : Torch.clamp_max t temperature_max = temperature_max)
    by (unfold Torch.clamp_max; now apply Rmin_right).
  rewrite E. split; [reflexivity|].
  split; [apply ln_100_lt_temperature_max | apply exp_temperature_max_gt].
Qed.

End ClampBound.

(** * Properties of the batch step *)

Section StepProperties.

Context {W O G S C : Type}.
Context {FM : FieldModel W} {OPT : Optimizer W O G}
        {CLS : Classifier C} {MET : Metric S} {F : Functional}.

Local Abbreviation World := (@World W O G S).

Lemma train_batch_ok_inv (c : C) args mc (b : Batch) acc (w : World) :
  is_ok (fst (train_batch c args mc b acc w)) = true ->
  let g := gradient (weighted_contrastive_sum args b) (model w) in
  let om := optim_step (optim_state w) (model w) (Some g) in
  grad_enabled w = true /\
  (exists acc',
      fst (train_batch c args mc b acc w) = Ok acc' /\
      total_loss acc' = (total_loss acc + weighted_contrastive_sum args b (model w))%R /\
      total_samples acc' = (total_samples acc + 1)%nat) /\
  model (snd (train_batch c args mc b acc w)) = clamped (snd om) /\
  optim_state (snd (train_batch c args mc b acc w)) = fst om /\
  grads (snd (train_batch c args mc b acc w)) = Some g.
Proof.
  rewrite train_batch_spec.
  destruct (negb (Torch.any _)); [discriminate|].
  destruct (negb (Nat.eqb _ _)); [discriminate|].
  destruct (cross_entropy _ _); [|discriminate].
  destruct (grad_enabled w); [|discriminate].
  simpl. intros _. repeat split. eexists. repeat split.
Qed.

Lemma train_batch_raise_model (c : C) args mc (b : Batch) acc (w : World) :
  is_ok (fst (train_batch c args mc b acc w)) = false ->
  model (snd (train_batch c args mc b acc w)) = model w.
Proof.
  rewrite train_batch_spec.
  destruct (negb (Torch.any _)); [reflexivity|].
  destruct (negb (Nat.eqb _ _)); [reflexivity|].
  destruct (cross_entropy _ _); [|reflexivity].
  destruct (negb (grad_enabled w)); [reflexivity|]. discriminate.
Qed.

Lemma train_batch_bounded (c : C) args mc (b : Batch) acc (w : World) :
  is_ok (fst (train_batch c args mc b acc w)) = true \/ temperature_bounded w ->
  temperature_bounded (snd (train_batch c args mc b acc w)).
Proof.
  intros H. unfold temperature_bounded.
  destruct (is_ok (fst (train_batch c args mc b acc w))) eqn:E.
  - apply train_batch_ok_inv in E. destruct E as (_ & _ & -> & _).
    apply exp_clamp_max.
  - destruct H as [H|H]; [discriminate|].
    now rewrite train_batch_raise_model.
Qed.

Lemma batch_loop_bounded (c : C) args mc (loader : list Batch) acc (w : World) :
  temperature_bounded w ->
  temperature_bounded (snd (for_fold loader (train_batch c args mc) acc w)).
Proof.
  revert acc w. induction loader as [|b loader IH]; intros acc w Hw; simpl.
  - assumption.
  - unfold bind.
    pose proof (train_batch_bounded c args mc b acc (or_intror Hw)) as Hb.
    destruct (train_batch c args mc b acc w) as [[acc'|e] w1]; simpl in *.
    + now apply IH.
    + assumption.
Qed.

(** C3. In every batch step that completes, the scalar that is differentiated
    and handed to the optimizer is [image_to_label_loss_ratio] times the
    visual contrastive loss plus [label_to_image_loss_ratio] times the
    semantic contrastive loss; both ratios default to 1.0.  Neither the
    gradient nor the updated parameters mention the classifier, so the
    classification loss is not part of it. *)
Theorem backward_scalar_is_weighted_sum
        (c : C) args mc (b : Batch) acc (w : World) :
  is_ok (fst (train_batch c args mc b acc w)) = true ->
  let w' := snd (train_batch c args mc b acc w) in
  let objective := weighted_contrastive_sum args b in
  let g := gradient objective (model w) in
  (forall theta,
      objective theta =
      (image_to_label_loss_ratio args * visual_contrastive_loss args b theta
       + label_to_image_loss_ratio args * semantic_contrastive_loss b theta)%R) /\
  grads w' = Some g /\
  optim_state w' = fst (optim_step (optim_state w) (model w) (Some g)) /\
  model w' = clamped (snd (optim_step (optim_state w) (model w) (Some g))) /\
  (exists acc',
      fst (train_batch c args mc b acc w) = Ok acc' /\
      total_loss acc' = (total_loss acc + objective (model w))%R) /\
  image_to_label_loss_ratio default_args = 1%R /\
  label_to_image_loss_ratio default_args = 1%R.
Proof.
  intros Hok w' objective g.
  destruct (train_batch_ok_inv c args mc b acc w Hok)
    as (_ & (acc' & Hacc & Htot & _) & Hm & Ho & Hg).
  repeat split; try assumption; try reflexivity.
  exists acc'. split; assumption.
Qed.

End StepProperties.

(** * The epoch: batch loop, averages, metric report *)

Section Epoch.

Context {W O G S C : Type}.
Context {FM : FieldModel W} {OPT : Optimizer W O G}
        {CLS : Classifier C} {MET : Metric S} {F : Functional}.

Local Abbreviation World := (@World W O G S).

Lemma for_fold_preserves {St A B} (P : St -> Prop) (body : A -> B -> M St B) :
  (forall x acc w, P w -> P (snd (body x acc w))) ->
  forall xs acc w, P w -> P (snd (for_fold xs body acc w)).
Proof.
  intros Hbody xs. induction xs as [|x xs IH]; intros acc w Hw; simpl.
  - assumption.
  - unfold bind. specialize (Hbody x acc w Hw).
    destruct (body x acc w) as [[acc'|e] w1]; simpl in *; auto.
Qed.

Lemma for_fold_app {St A B} (body : A -> B -> M St B) xs ys acc (w : St) :
  for_fold (xs ++ ys) body acc w =
  bind (for_fold xs body acc) (fun acc' => for_fold ys body acc') w.
Proof.
  revert acc w. induction xs as [|x xs IH]; intros acc w; simpl.
  - reflexivity.
  - unfold bind in *. destruct (body x acc w) as [[acc'|e] w1]; [apply IH | reflexivity].
Qed.

Lemma for_fold_nested {St A B} (body : A -> B -> M St B) xss acc (w : St) :
  for_fold xss (fun xs acc' => for_fold xs body acc') acc w =
  for_fold (concat xss) body acc w.
Proof.
  revert acc w. induction xss as [|xs xss IH]; intros acc w; simpl.
  - reflexivity.
  - rewrite for_fold_app. unfold bind.
    destruct (for_fold xs body acc w) as [[acc'|e] w1]; [apply IH | reflexivity].
Qed.

Lemma log_metrics_flat mc to_log (w : World) :
  log_metrics mc to_log w = for_fold (all_metrics mc) log_metric to_log w.
Proof. apply for_fold_nested. Qed.

Lemma log_metric_spec (item : string * handle) to_log (w : World) :
  log_metric item to_log w =
  let reset := set_metric (snd item) (metric_reset (metrics w (snd item))) w in
  match metric_compute (metrics w (snd item)) with
  | Ok v => (Ok (Py.set (metric_key (fst item)) v to_log), reset)
  | Raise e =>
      if is_RuntimeError e
      then (Ok (Py.set (metric_key (fst item)) 0%R to_log), reset)
      else (Raise e, w)
  end.
Proof.
  unfold log_metric, bind, read_metric, reset_metric.
  destruct (metric_compute _) as [v|e]; simpl; [reflexivity|].
  destruct (is_RuntimeError e); reflexivity.
Qed.

Lemma py_get_set {V} k (v : V) d : Py.get k (Py.set k v d) = Some v.
Proof.
  induction d as [|[k' v'] d IH]; simpl.
  - now rewrite String.eqb_refl.
  - destruct (String.eqb k k') eqn:E; simpl; rewrite ?String.eqb_refl, ?E; auto.
Qed.

Lemma log_metric_frame w0 item to_log (w : World) :
  same_training_state w0 w ->
  same_training_state w0 (snd (log_metric item to_log w)).
Proof.
  intros H. rewrite log_metric_spec. simpl.
  destruct (metric_compute _) as [v|e]; [exact H|].
  destruct (is_RuntimeError e); exact H.
Qed.

Lemma epoch_averages_spec acc (w : World) :
  epoch_averages acc w =
  if Nat.eqb (total_samples acc) 0 then (Raise ZeroDivisionError, w)
  else
    (Ok [ ("train_avg/contrastive_loss_labels"%string,
           (label_loss acc / INR (total_samples acc))%R);
          ("train_avg/contrastive_loss_images"%string,
           (image_loss acc / INR (total_samples acc))%R);
          ("train_avg/semseg_loss"%string,
           (total_classification_loss acc / INR (total_samples acc))%R);
          ("train_avg/loss_sum"%string,
           (total_loss acc / INR (total_samples acc))%R);
          ("train_avg/labelling_temp"%string, exp (temperature (model w))) ], w).
Proof.
  unfold epoch_averages, bind, lift, Py.div.
  destruct (Nat.eqb (total_samples acc) 0); reflexivity.
Qed.

Lemma epoch_end_frame mc acc (w : World) :
  same_training_state w (snd (epoch_end mc acc w)).
Proof.
  unfold epoch_end, bind. rewrite epoch_averages_spec.
  destruct (Nat.eqb _ _); simpl; [repeat split|].
  rewrite log_metrics_flat.
  pose proof (@for_fold_preserves _ _ _ (same_training_state w) log_metric
                (@log_metric_frame w) (all_metrics mc)) as Hloop.
  match goal with |- context [for_fold _ _ ?tl w] => specialize (Hloop tl w) end.
  destruct (for_fold _ _ _ w) as [[tl'|e] w1]; simpl in *;
    apply Hloop; repeat split.
Qed.

Lemma batch_loop_count (c : C) args mc (loader : list Batch) acc (w : World) acc' :
  fst (for_fold loader (train_batch c args mc) acc w) = Ok acc' ->
  total_samples acc' = (total_samples acc + length loader)%nat.
Proof.
  revert acc w. induction loader as [|b loader IH]; intros acc w; simpl.
  - intros [= <-]. lia.
  - unfold bind.
    destruct (train_batch c args mc b acc w) as [[acc1|e] w1] eqn:E; [|discriminate].
    intros H. apply IH in H. rewrite H.
    assert (Hok : is_ok (fst (train_batch c args mc b acc w)) = true)
      by now rewrite E.
    destruct (train_batch_ok_inv c args mc b acc w Hok)
      as (_ & (acc2 & Hacc & _ & Hn) & _).
    rewrite E in Hacc. simpl in Hacc. injection Hacc as <-. lia.
Qed.

Lemma train_bounded (c : C) args mc loader epoch (w : World) :
  temperature_bounded w ->
  temperature_bounded (snd (train loader epoch c args mc w)).
Proof.
  intros Hw. unfold train, bind at 1. simpl.
  unfold bind.
  match goal with |- context [for_fold _ _ _ ?w0] =>
    assert (Hloop : temperature_bounded
                      (snd (for_fold loader (train_batch c args mc)
                                     initial_totals w0)))
      by (apply batch_loop_bounded; exact Hw)
  end.
  destruct (for_fold _ _ _ _) as [[acc|e] w1]; simpl in *; [|assumption].
  destruct (epoch_end_frame mc acc w1) as (Hm & _).
  unfold temperature_bounded in *. now rewrite Hm.
Qed.

(** C5 (amended). After the optimizer step of a batch, the temperature is the
    stepped one clamped to [temperature_max], the single-precision value of
    [np.log(100.0)], which lies above ln 100 by less than 1e-7: its raw value
    is at most [temperature_max] and its exponential is below 100.00001.
    When the stepped temperature is at most ln 100 the clamp leaves it as it
    is and its exponential is at most 100; when the clamp binds, the
    temperature is [temperature_max], above ln 100, and its exponential is
    above 100.  The bound then holds after any further batches and epochs. *)
Theorem temperature_clamped_after_step
        (c : C) args mc (b : Batch) acc (w : World) :
  is_ok (fst (train_batch c args mc b acc w)) = true ->
  let w' := snd (train_batch c args mc b acc w) in
  let stepped :=
    snd (optim_step (optim_state w) (model w)
                    (Some (gradient (weighted_contrastive_sum args b) (model w)))) in
  temperature (model w') = Torch.clamp_max (temperature stepped) temperature_max /\
  (temperature (model w') <= temperature_max)%R /\
  (exp (temperature (model w')) < 100.00001)%R /\
  (ln 100 < temperature_max < ln 100 + 1 / 10000000)%R /\
  ((temperature stepped <= ln 100)%R ->
   temperature (model w') = temperature stepped /\
   (exp (temperature (model w')) <= 100)%R) /\
  ((temperature_max <= temperature stepped)%R ->
   temperature (model w') = temperature_max /\
   (ln 100 < temperature (model w'))%R /\
   (100 < exp (temperature (model w')))%R) /\
  (forall loader acc2,
      temperature_bounded (snd (for_fold loader (train_batch c args mc) acc2 w'))) /\
  (forall loader epoch,
      temperature_bounded (snd (train loader epoch c args mc w'))).
Proof.
  intros Hok w' stepped.
  assert (Hb : temperature_bounded w')
    by (apply train_batch_bounded; now left).
  destruct (train_batch_ok_inv c args mc b acc w Hok) as (_ & _ & Hm & _).
  assert (Ht : temperature (model w') =
               Torch.clamp_max (temperature stepped) temperature_max)
    by (subst w'; rewrite Hm; reflexivity).
  split; [exact Ht|].
  split; [apply Hb|]. split; [apply Hb|].
  split; [apply temperature_max_near_ln_100|].
  split; [|split; [|split]].
  - intros Hlow. destruct (clamp_max_below Hlow) as (E & Hexp).
    rewrite Ht, E. split; [reflexivity | exact Hexp].
  - intros Hhigh. rewrite Ht. now apply clamp_max_binds.
  - intros. now apply batch_loop_bounded.
  - intros. now apply train_bounded.
Qed.

Lemma log_metric_total (item : string * handle) to_log (w : World) :
  (forall s e, metric_compute s = Raise e -> is_RuntimeError e = true) ->
  exists v,
    log_metric item to_log w =
    (Ok (Py.set (metric_key (fst item)) v to_log),
     set_metric (snd item) (metric_reset (metrics w (snd item))) w) /\
    (forall e, metric_compute (metrics w (snd item)) = Raise e -> v = 0%R) /\
    (forall x, metric_compute (metrics w (snd item)) = Ok x -> v = x).
Proof.
  intros Hrt. rewrite log_metric_spec. simpl.
  destruct (metric_compute (metrics w (snd item))) as [x|e] eqn:E.
  - exists x. split; [reflexivity|]. split; [discriminate | now intros ? [= ->]].
  - rewrite (Hrt _ _ E). exists 0%R. split; [reflexivity|].
    split; [reflexivity | discriminate].
Qed.

Lemma metric_loop_spec (items : list (string * handle)) :
  (forall s e, metric_compute s = Raise e -> is_RuntimeError e = true) ->
  forall to_log (w : World),
  exists to_log' st',
    for_fold items log_metric to_log w = (Ok to_log', set_metrics st' w) /\
    (forall h, In h (map snd items) -> exists s, st' h = metric_reset s) /\
    (forall h, ~ In h (map snd items) -> st' h = metrics w h).
Proof.
  intros Hrt. induction items as [|item rest IH]; intros to_log w; simpl.
  - exists to_log, (metrics w). rewrite set_metrics_same.
    split; [reflexivity|]. split; [intros h [] | reflexivity].
  - unfold bind.
    destruct (log_metric_total item to_log w Hrt) as (v & -> & _).
    destruct (IH (Py.set (metric_key (fst item)) v to_log)
                 (set_metric (snd item) (metric_reset (metrics w (snd item))) w))
      as (to_log' & st' & -> & Hreset & Hframe).
    exists to_log', st'. split; [reflexivity|]. split.
    + intros h Hin.
      destruct (in_dec Nat.eq_dec h (map snd rest)) as [Hrest|Hrest];
        [now apply Hreset|].
      destruct Hin as [<-|Hin]; [|contradiction].
      rewrite (Hframe _ Hrest). simpl. rewrite Nat.eqb_refl. eauto.
    + intros h Hnot. rewrite Hframe by tauto. simpl.
      destruct (Nat.eqb_spec h (snd item)) as [->|]; [tauto | reflexivity].
Qed.

Lemma epoch_end_reports mc acc (w : World) :
  (forall s e, metric_compute s = Raise e -> is_RuntimeError e = true) ->
  total_samples acc <> 0%nat ->
  exists report w',
    epoch_end mc acc w = (Ok (total_loss acc), w') /\
    wandb_log w' = wandb_log w ++ [report] /\
    (forall h, In h (map snd (all_metrics mc)) ->
               exists s, metrics w' h = metric_reset s).
Proof.
  intros Hrt Hn. unfold epoch_end, bind.
  rewrite epoch_averages_spec.
  apply Nat.eqb_neq in Hn. rewrite Hn. rewrite log_metrics_flat.
  match goal with |- context [for_fold _ _ ?tl w] =>
    destruct (metric_loop_spec (all_metrics mc) Hrt tl w)
      as (to_log' & st' & -> & Hreset & _)
  end.
  simpl. eexists _, _. split; [reflexivity|]. split; [reflexivity|].
  exact Hreset.
Qed.

Lemma train_batch_wandb_log (c : C) args mc (b : Batch) acc (w : World) :
  wandb_log (snd (train_batch c args mc b acc w)) = wandb_log w.
Proof.
  rewrite train_batch_spec.
  destruct (negb (Torch.any _)); [reflexivity|].
  destruct (negb (Nat.eqb _ _)); [reflexivity|].
  destruct (cross_entropy _ _); [|reflexivity].
  destruct (negb _); reflexivity.
Qed.

Lemma batch_loop_wandb_log (c : C) args mc (loader : list Batch) acc (w : World) :
  wandb_log (snd (for_fold loader (train_batch c args mc) acc w)) = wandb_log w.
Proof.
  apply (@for_fold_preserves _ _ _ (fun w' : World => wandb_log w' = wandb_log w)
                             (train_batch c args mc)); [|reflexivity].
  intros b acc0 w0 H. now rewrite train_batch_wandb_log.
Qed.

Lemma py_get_set_other {V} k k' (v : V) d :
  k <> k' -> Py.get k (Py.set k' v d) = Py.get k d.
Proof.
  intros Hne. induction d as [|[k0 v0] d IH]; simpl.
  - destruct (String.eqb_spec k k'); [contradiction | reflexivity].
  - destruct (String.eqb_spec k' k0) as [Heq|Hk0]; simpl.
    + destruct (String.eqb_spec k k'); [contradiction|].
      destruct (String.eqb_spec k k0); [congruence | reflexivity].
    + destruct (String.eqb_spec k k0); [reflexivity | exact IH].
Qed.

Lemma py_get_in_nodup {V} k (v : V) d :
  NoDup (map fst d) -> In (k, v) d -> Py.get k d = Some v.
Proof.
  induction d as [|[k0 v0] d IH]; simpl; intros Hnd Hin; [contradiction|].
  inversion Hnd as [|? ? Hnotin Hnd']; subst.
  destruct Hin as [[= -> ->]|Hin].
  - now rewrite String.eqb_refl.
  - destruct (String.eqb_spec k k0) as [->|]; [|now apply IH].
    exfalso. apply Hnotin. apply in_map_iff. now exists (k0, v).
Qed.

Lemma metric_key_inj a b : metric_key a = metric_key b -> a = b.
Proof. unfold metric_key. simpl. now intros [= ->]. Qed.

Lemma metric_reading_total (item : string * handle) to_log (w : World) :
  (forall s e, metric_compute s = Raise e -> is_RuntimeError e = true) ->
  log_metric item to_log w =
  (Ok (Py.set (metric_key (fst item)) (metric_reading (metrics w (snd item))) to_log),
   set_metric (snd item) (metric_reset (metrics w (snd item))) w).
Proof.
  intros Hrt. rewrite log_metric_spec. unfold metric_reading. simpl.
  destruct (metric_compute (metrics w (snd item))) as [x|e] eqn:E; [reflexivity|].
  now rewrite (Hrt _ _ E).
Qed.

Lemma log_metric_ok_key (item : string * handle) to_log (w : World) to_log' k :
  fst (log_metric item to_log w) = Ok to_log' ->
  metric_key (fst item) <> k ->
  Py.get k to_log' = Py.get k to_log.
Proof.
  rewrite log_metric_spec. simpl. intros H Hk.
  destruct (metric_compute _) as [x|e].
  - injection H as <-. apply py_get_set_other. congruence.
  - destruct (is_RuntimeError e); [|discriminate].
    injection H as <-. apply py_get_set_other. congruence.
Qed.

Lemma metric_loop_keeps_key (items : list (string * handle)) k :
  (forall item, In item items -> metric_key (fst item) <> k) ->
  forall to_log (w : World) to_log',
    fst (for_fold items log_metric to_log w) = Ok to_log' ->
    Py.get k to_log' = Py.get k to_log.
Proof.
  induction items as [|item rest IH]; intros Hk to_log w to_log'; simpl.
  - now intros [= <-].
  - unfold bind.
    destruct (log_metric item to_log w) as [[tl1|e] w1] eqn:E; [|discriminate].
    intros Hrest.
    rewrite (IH (fun it Hin => Hk it (or_intror Hin)) tl1 w1 to_log' Hrest).
    apply (log_metric_ok_key item to_log w); [now rewrite E | apply Hk; now left].
Qed.

Lemma metric_loop_readings (items : list (string * handle)) :
  (forall s e, metric_compute s = Raise e -> is_RuntimeError e = true) ->
  NoDup (map fst items) ->
  NoDup (map snd items) ->
  forall to_log (w : World) to_log',
    fst (for_fold items log_metric to_log w) = Ok to_log' ->
    forall name h,
      In (name, h) items ->
      Py.get (metric_key name) to_log' = Some (metric_reading (metrics w h)).
Proof.
  intros Hrt. induction items as [|item rest IH];
    intros Hnames Hhandles to_log w to_log' Hloop name h Hin; [contradiction|].
  simpl in Hnames, Hhandles.
  inversion Hnames as [|? ? Hname Hnames']; subst.
  inversion Hhandles as [|? ? Hhandle Hhandles']; subst.
  simpl in Hloop. unfold bind in Hloop.
  rewrite (metric_reading_total item to_log w Hrt) in Hloop.
  destruct Hin as [->|Hin].
  - simpl in *.
    assert (Hk : forall it, In it rest -> metric_key (fst it) <> metric_key name).
    { intros it Hit Heq. apply metric_key_inj in Heq. apply Hname.
      apply in_map_iff. exists it. auto. }
    rewrite (metric_loop_keeps_key rest Hk _ _ Hloop).
    apply py_get_set.
  - rewrite (IH Hnames' Hhandles' _ _ _ Hloop name h Hin). simpl.
    destruct (Nat.eqb_spec h (snd item)) as [->|]; [|reflexivity].
    exfalso. apply Hhandle. apply in_map_iff. now exists (name, snd item).
Qed.

Lemma log_metric_log_frame (w0 : World) item to_log (w : World) :
  wandb_log w = wandb_log w0 /\ grad_enabled w = grad_enabled w0 ->
  wandb_log (snd (log_metric item to_log w)) = wandb_log w0 /\
  grad_enabled (snd (log_metric item to_log w)) = grad_enabled w0.
Proof.
  intros H. rewrite log_metric_spec. simpl.
  destruct (metric_compute _) as [v|e]; [exact H|].
  destruct (is_RuntimeError e); exact H.
Qed.

Lemma metric_loop_log_frame items to_log (w : World) :
  wandb_log (snd (for_fold items log_metric to_log w)) = wandb_log w /\
  grad_enabled (snd (for_fold items log_metric to_log w)) = grad_enabled w.
Proof.
  apply (@for_fold_preserves _ _ _
           (fun w' : World => wandb_log w' = wandb_log w /\
                              grad_enabled w' = grad_enabled w)
           log_metric (@log_metric_log_frame w)); auto.
Qed.

Lemma average_entries_keys (acc : Totals) (m : Model W) :
  NoDup (map fst (average_entries acc m)).
Proof.
  simpl. repeat constructor; simpl; intuition discriminate.
Qed.

(** What a returning [epoch_end] did. *)
Lemma epoch_end_ok_inv mc acc (w : World) :
  is_ok (fst (epoch_end mc acc w)) = true ->
  total_samples acc <> 0%nat /\
  exists report,
    fst (for_fold (all_metrics mc) log_metric (average_entries acc (model w)) w)
    = Ok report /\
    epoch_end mc acc w =
    (Ok (total_loss acc),
     wandb_log_call report
       (snd (for_fold (all_metrics mc) log_metric
                      (average_entries acc (model w)) w))).
Proof.
  unfold epoch_end, bind. rewrite epoch_averages_spec.
  destruct (Nat.eqb_spec (total_samples acc) 0) as [|Hn]; [discriminate|].
  rewrite log_metrics_flat. fold (average_entries acc (model w)).
  destruct (for_fold (all_metrics mc) log_metric _ w) as [[report|e] w1];
    [|discriminate].
  intros _. split; [assumption|]. exists report. split; reflexivity.
Qed.

Lemma train_as_bind (c : C) args mc (loader : list Batch) epoch (w : World) :
  train loader epoch c args mc w =
  bind (for_fold loader (train_batch c args mc) initial_totals)
       (epoch_end mc) (snd (set_train_mode w)).
Proof. reflexivity. Qed.

(** What a returning [train] did. *)
Lemma train_ok_inv (c : C) args mc (loader : list Batch) epoch (w : World) :
  is_ok (fst (train loader epoch c args mc w)) = true ->
  let r1 := for_fold loader (train_batch c args mc) initial_totals
                     (snd (set_train_mode w)) in
  exists acc report,
    fst r1 = Ok acc /\
    total_samples acc = length loader /\
    fst (for_fold (all_metrics mc) log_metric
                  (average_entries acc (model (snd r1))) (snd r1)) = Ok report /\
    fst (train loader epoch c args mc w) = Ok (total_loss acc) /\
    wandb_log (snd (train loader epoch c args mc w)) = wandb_log w ++ [report] /\
    grad_enabled (snd (train loader epoch c args mc w)) = grad_enabled (snd r1).
Proof.
  intros Hok r1. rewrite train_as_bind in *. unfold bind in *. fold r1 in Hok |- *.
  pose proof (batch_loop_wandb_log c args mc loader initial_totals
                                   (snd (set_train_mode w))) as Hlog.
  fold r1 in Hlog.
  assert (Hcount : forall acc, fst r1 = Ok acc ->
                               total_samples acc = length loader).
  { intros acc Hacc. subst r1.
    now rewrite (batch_loop_count c args mc loader initial_totals _ Hacc). }
  destruct r1 as [[acc|e] w1]; [|discriminate].
  destruct (epoch_end_ok_inv mc acc w1 Hok) as (_ & report & Hrep & Hend).
  pose proof (metric_loop_log_frame (all_metrics mc)
                (average_entries acc (model w1)) w1) as (Hl & Hg).
  exists acc, report. simpl in *. rewrite Hend. simpl.
  repeat split; auto. now rewrite Hl, Hlog.
Qed.

(** C7. When reading a metric raises a RuntimeError, 0.0 is recorded under
    its key instead; the metric is reset after a successful read and after a
    failed one; the loops over the metrics run to their end, and after a
    batch loop over at least one batch [train] returns and hands to the
    logger the dictionary that those loops filled.  With distinct names and
    distinct metric objects, that logged report holds under the key of each
    metric the value read from it at the end of the batch loop, and 0.0 when
    that read raised. *)
Theorem metric_read_failure_reports_zero (c : C) args mc (w : World) :
  (forall s e, metric_compute s = Raise e -> is_RuntimeError e = true) ->
  (forall name h to_log (w0 : World),
      exists v,
        log_metric (name, h) to_log w0 =
        (Ok (Py.set (metric_key name) v to_log),
         set_metric h (metric_reset (metrics w0 h)) w0) /\
        Py.get (metric_key name) (Py.set (metric_key name) v to_log) = Some v /\
        (forall e, metric_compute (metrics w0 h) = Raise e -> v = 0%R) /\
        (forall x, metric_compute (metrics w0 h) = Ok x -> v = x)) /\
  (forall to_log,
      exists to_log' st',
        log_metrics mc to_log w = (Ok to_log', set_metrics st' w) /\
        (forall h, In h (map snd (all_metrics mc)) -> exists s, st' h = metric_reset s) /\
        (forall h, ~ In h (map snd (all_metrics mc)) -> st' h = metrics w h)) /\
  (forall loader epoch,
      loader <> [] ->
      let r1 := for_fold loader (train_batch c args mc) initial_totals
                         (snd (set_train_mode w)) in
      is_ok (fst r1) = true ->
      exists acc report,
        fst r1 = Ok acc /\
        fst (log_metrics mc (average_entries acc (model (snd r1))) (snd r1))
        = Ok report /\
        fst (train loader epoch c args mc w) = Ok (total_loss acc) /\
        wandb_log (snd (train loader epoch c args mc w)) = wandb_log w ++ [report] /\
        (forall h, In h (map snd (all_metrics mc)) ->
                   exists s, metrics (snd (train loader epoch c args mc w)) h
                             = metric_reset s) /\
        (NoDup (map fst (all_metrics mc)) ->
         NoDup (map snd (all_metrics mc)) ->
         forall name h,
           In (name, h) (all_metrics mc) ->
           Py.get (metric_key name) report
           = Some (metric_reading (metrics (snd r1) h)) /\
           (forall e, metric_compute (metrics (snd r1) h) = Raise e ->
                      Py.get (metric_key name) report = Some 0%R))).
Proof.
  intros Hrt. split; [|split].
  - intros name h to_log w0.
    destruct (log_metric_total (name, h) to_log w0 Hrt) as (v & Hv & H0 & Hx).
    exists v. repeat split; auto using py_get_set.
  - intros to_log. rewrite log_metrics_flat. now apply metric_loop_spec.
  - intros loader epoch Hne r1 Hok1.
    assert (Hend : exists acc w',
               fst r1 = Ok acc /\
               train loader epoch c args mc w = (Ok (total_loss acc), w') /\
               (forall h, In h (map snd (all_metrics mc)) ->
                          exists s, metrics w' h = metric_reset s)).
    { rewrite train_as_bind. unfold bind. fold r1.
      pose proof (batch_loop_count c args mc loader initial_totals
                                   (snd (set_train_mode w))) as Hcount.
      fold r1 in Hcount.
      destruct r1 as [[acc|e] w1]; [|discriminate].
      assert (Hn : total_samples acc <> 0%nat).
      { rewrite (Hcount acc eq_refl). simpl.
        destruct loader; [congruence | simpl; lia]. }
      destruct (epoch_end_reports mc acc w1 Hrt Hn) as (report0 & w' & -> & _ & Hr).
      exists acc, w'. repeat split; [exact Hr]. }
    destruct Hend as (acc & w' & Hacc & Htrain & Hreset).
    assert (Hok : is_ok (fst (train loader epoch c args mc w)) = true)
      by now rewrite Htrain.
    destruct (train_ok_inv c args mc loader epoch w Hok)
      as (acc2 & report & Hacc2 & _ & Hrep & Hret & Hlog & _).
    fold r1 in Hacc2, Hrep.
    assert (acc2 = acc) by congruence. subst acc2.
    exists acc, report.
    split; [exact Hacc|].
    split; [now rewrite log_metrics_flat|].
    split; [exact Hret|]. split; [exact Hlog|].
    split; [now rewrite Htrain|].
    intros Hnames Hhandles name h Hin.
    assert (Hget : Py.get (metric_key name) report
                   = Some (metric_reading (metrics (snd r1) h)))
      by (eapply metric_loop_readings; eassumption).
    split; [exact Hget|].
    intros e He. rewrite Hget. unfold metric_reading. now rewrite He.
Qed.

(** C10. The epoch averages divide by [total_samples], which starts at 0 and
    grows by one with each batch; with a loader that yields no batch the
    first division raises ZeroDivisionError, nothing is logged and no metric
    is read or reset. *)
Theorem epoch_report_needs_a_batch (c : C) args mc epoch (w : World) :
  fst (train [] epoch c args mc w) = Raise ZeroDivisionError /\
  wandb_log (snd (train [] epoch c args mc w)) = wandb_log w /\
  (forall h, metrics (snd (train [] epoch c args mc w)) h = metrics w h) /\
  total_samples initial_totals = 0%nat /\
  (forall loader acc (w0 : World) acc',
      fst (for_fold loader (train_batch c args mc) acc w0) = Ok acc' ->
      total_samples acc' = (total_samples acc + length loader)%nat) /\
  (forall acc (w0 : World),
      epoch_averages acc w0 =
      if Nat.eqb (total_samples acc) 0 then (Raise ZeroDivisionError, w0)
      else
        (Ok [ ("train_avg/contrastive_loss_labels"%string,
               (label_loss acc / INR (total_samples acc))%R);
              ("train_avg/contrastive_loss_images"%string,
               (image_loss acc / INR (total_samples acc))%R);
              ("train_avg/semseg_loss"%string,
               (total_classification_loss acc / INR (total_samples acc))%R);
              ("train_avg/loss_sum"%string,
               (total_loss acc / INR (total_samples acc))%R);
              ("train_avg/labelling_temp"%string, exp (temperature (model w0))) ],
         w0)).
Proof.
  repeat split.
  - intros loader acc w0 acc'. apply batch_loop_count.
  - intros acc w0. apply epoch_averages_spec.
Qed.

End Epoch.

(** * The statements on the concrete instance *)

Section ToyInstance.

Import Toy.

Lemma toy_step_ok :
  is_ok (fst (train_batch 2%Z default_args calculators batch initial_totals world)) = true.
Proof. reflexivity. Qed.

Example toy_semantic_metric_updated :
  metrics (snd (train_batch 2%Z default_args calculators batch initial_totals world))
          1%nat = 1%nat.
Proof. reflexivity. Qed.

Example toy_unlabeled_epoch_raises :
  fst (train [batch; unlabeled_batch] 0%Z 2%Z default_args calculators world) =
  Raise (RuntimeError Torch.mean_dtype_error).
Proof. reflexivity. Qed.

Example toy_epoch_reports :
  is_ok (fst (train [batch] 0%Z 2%Z default_args calculators world)) = true /\
  length (wandb_log (snd (train [batch] 0%Z 2%Z default_args calculators world))) = 1%nat.
Proof. split; reflexivity. Qed.

Lemma toy_compute_runtime_only :
  forall (s : nat) e, metric_compute s = Raise e -> is_RuntimeError e = true.
Proof.
  intros s e. simpl. destruct (Nat.eqb s 0); [|discriminate].
  now intros [= <-].
Qed.

Lemma zero_shot_eval_no_valid_label_raises_witness :
  zero_shot_eval 2%Z label_latents image_latents
                 (language_label_index unlabeled_batch) calculators world =
  (Raise (RuntimeError Torch.mean_dtype_error), world).
Proof.
  apply (zero_shot_eval_no_valid_label_raises
           2%Z label_latents image_latents
           (lli := language_label_index unlabeled_batch) calculators world).
  simpl. repeat constructor.
Defined.


(** An identifier below -1 passes the mask, [F.cross_entropy] rejects it and
    the evaluation raises; no metric is updated. *)
Example toy_label_below_sentinel_raises :
  semseg_mask 2%Z (language_label_index mislabelled_batch) = [true; true] /\
  zero_shot_eval 2%Z label_latents image_latents
                 (language_label_index mislabelled_batch) calculators world
  = (Raise IndexError, world).
Proof. split; reflexivity. Qed.

Lemma zero_shot_eval_updates_semantic_only_witness :
  metrics (snd (zero_shot_eval 2%Z label_latents image_latents
                               (language_label_index batch) calculators world))
          0%nat
  = metrics world 0%nat.
Proof.
  apply (zero_shot_eval_updates_semantic_only
           2%Z label_latents image_latents (language_label_index batch)
           calculators world 0%nat).
  simpl. lia.
Defined.

Lemma zero_shot_eval_no_grad_witness :
  model (snd (train_batch 2%Z default_args calculators batch initial_totals world)) =
  model (snd (train_batch 5%Z default_args [] batch initial_totals world)).
Proof.
  apply (zero_shot_eval_no_grad
           2%Z label_latents image_latents (language_label_index batch)
           calculators world);
    reflexivity.
Defined.

Lemma backward_scalar_is_weighted_sum_witness :
  grads (snd (train_batch 2%Z default_args calculators batch initial_totals world)) =
  Some (gradient (weighted_contrastive_sum default_args batch) (model world)).
Proof.
  apply (backward_scalar_is_weighted_sum
           2%Z default_args calculators batch initial_totals world).
  reflexivity.
Defined.

Lemma toy_hot_step_ok :
  is_ok (fst (train_batch 2%Z default_args calculators batch initial_totals
                          hot_world)) = true.
Proof. reflexivity. Qed.

(** From [hot_world] the optimizer steps from 10.0 to 6.0, above the clamp. *)
Lemma toy_hot_stepped :
  (temperature_max <=
   temperature (snd (optim_step (optim_state hot_world) (model hot_world)
                  (Some (gradient (weighted_contrastive_sum default_args batch)
                                  (model hot_world))))))%R.
Proof.
  unfold temperature_max. simpl.
  unfold weighted_contrastive_sum, visual_contrastive_loss, semantic_contrastive_loss.
  simpl.
  unfold EXP_DECAY_COEFF, IMAGE_TO_LABEL_CLIP_LOSS_SCALE, LABEL_TO_IMAGE_LOSS_SCALE.
  rewrite !Rmult_0_r, exp_0. lra.
Qed.

(** C5 as stated fails: after the step from [hot_world] the clamp binds, and
    the temperature it leaves is above ln 100, its exponential above 100. *)
Lemma temperature_exceeds_ln_100 :
  is_ok (fst (train_batch 2%Z default_args calculators batch initial_totals
                          hot_world)) = true /\
  ~ (temperature
       (model (snd (train_batch 2%Z default_args calculators batch initial_totals
                                hot_world)))
     <= ln 100)%R /\
  ~ (exp (temperature
            (model (snd (train_batch 2%Z default_args calculators batch
                                     initial_totals hot_world))))
     <= 100)%R.
Proof.
  pose proof toy_hot_step_ok as Hok.
  destruct (train_batch_ok_inv 2%Z default_args calculators batch initial_totals
                               hot_world Hok) as (_ & _ & Hm & _).
  destruct (clamp_max_binds toy_hot_stepped) as (_ & Hln & Hexp).
  split; [exact Hok|]. rewrite Hm. unfold clamped.
  cbn [temperature]. split; apply Rlt_not_le; assumption.
Qed.

Lemma temperature_clamped_after_step_witness :
  (temperature
     (model (snd (train_batch 2%Z default_args calculators batch initial_totals
                              hot_world)))
   = temperature_max)%R /\
  (exp (temperature
          (model (snd (train_batch 2%Z default_args calculators batch
                                   initial_totals hot_world))))
   < 100.00001)%R.
Proof.
  destruct (temperature_clamped_after_step
              2%Z default_args calculators batch initial_totals hot_world)
    as (_ & _ & Hexp & _ & _ & Hbind & _); [reflexivity|].
  split; [apply Hbind; exact toy_hot_stepped | exact Hexp].
Defined.

Lemma metric_read_failure_reports_zero_witness :
  exists report,
    wandb_log (snd (train [batch] 0%Z 2%Z default_args calculators world)) =
    wandb_log world ++ [report] /\
    Py.get (metric_key "geometric_accuracy") report = Some 0%R /\
    Py.get (metric_key "semantic_accuracy_micro") report = Some 1%R /\
    metrics (snd (train [batch] 0%Z 2%Z default_args calculators world)) 0%nat
    = 0%nat /\
    metrics (snd (train [batch] 0%Z 2%Z default_args calculators world)) 1%nat
    = 0%nat.
Proof.
  destruct (metric_read_failure_reports_zero 2%Z default_args calculators world
              toy_compute_runtime_only) as (_ & _ & Hepoch).
  destruct (Hepoch [batch] 0%Z) as (acc & report & _ & _ & _ & Hlog & _ & Hget);
    [discriminate | reflexivity |].
  assert (Hnames : NoDup (map fst (all_metrics calculators)))
    by (simpl; repeat constructor; simpl; intuition discriminate).
  assert (Hhandles : NoDup (map snd (all_metrics calculators)))
    by (simpl; repeat constructor; simpl; intuition discriminate).
  exists report. split; [exact Hlog|].
  split; [|split; [|split; reflexivity]].
  - destruct (Hget Hnames Hhandles "geometric_accuracy"%string 0%nat)
      as (_ & Hzero); [simpl; auto|].
    apply (Hzero (RuntimeError never_updated)). reflexivity.
  - destruct (Hget Hnames Hhandles "semantic_accuracy_micro"%string 1%nat)
      as (Hval & _); [simpl; auto|].
    rewrite Hval. unfold metric_reading. simpl. reflexivity.
Defined.

Lemma epoch_report_needs_a_batch_witness :
  fst (train [] 0%Z 2%Z default_args calculators world) = Raise ZeroDivisionError /\
  wandb_log (snd (train [] 0%Z 2%Z default_args calculators world)) = wandb_log world.
Proof.
  split; apply (epoch_report_needs_a_batch 2%Z default_args calculators 0%Z world).
Defined.

End ToyInstance.

(** * Further properties of the pairwise masks *)

Section MaskTables.

(** The mask as a table over the index pairs. *)
Lemma label_mask_table index :
  label_mask index (length index) =
  map (fun i => map (fun j => differ_plus_identity index i j)
                    (seq 0 (length index)))
      (seq 0 (length index)).
Proof.
  apply nth_error_ext. intros i.
  rewrite nth_error_map.
  destruct (Nat.ltb_spec i (length index)) as [Hi|Hi].
  - rewrite nth_error_seq_lt by assumption. simpl.
    unfold label_mask, Torch.add. rewrite nth_error_zip_with.
    unfold Torch.float, Torch.ne_outer, Torch.eye.
    rewrite !nth_error_map, (nth_error_nth' index 0%Z Hi),
      nth_error_seq_lt by assumption.
    simpl. f_equal. apply nth_error_ext. intros j.
    rewrite nth_error_zip_with, !nth_error_map.
    destruct (Nat.ltb_spec j (length index)) as [Hj|Hj].
    + rewrite (nth_error_nth' index 0%Z Hj), nth_error_seq_lt by assumption.
      simpl. f_equal. unfold differ_plus_identity, Torch.bool_to_float.
      destruct (Z.eqb _ _), (Nat.eqb i j); reflexivity.
    + assert (Hs : nth_error (seq 0 (length index)) j = None)
        by (apply nth_error_None; rewrite length_seq; lia).
      rewrite Hs. simpl.
      destruct (nth_error index j); reflexivity.
  - assert (Hs : nth_error (seq 0 (length index)) i = None)
      by (apply nth_error_None; rewrite length_seq; lia).
    rewrite Hs. simpl.
    unfold label_mask, Torch.add. rewrite nth_error_zip_with.
    unfold Torch.float, Torch.ne_outer.
    rewrite !nth_error_map.
    assert (Hn : nth_error index i = None) by now apply nth_error_None.
    rewrite Hn. reflexivity.
Qed.

Lemma differ_plus_identity_binary index i j :
  (i < length index)%nat -> (j < length index)%nat ->
  differ_plus_identity index i j = 0%R \/ differ_plus_identity index i j = 1%R.
Proof.
  intros Hi Hj. unfold differ_plus_identity.
  destruct (Nat.eqb_spec i j) as [->|Hij].
  - rewrite Z.eqb_refl. right. lra.
  - destruct (Z.eqb _ _); [left | right]; lra.
Qed.

(** X1. Both masks are square of side the batch length. *)
Theorem mask_shape (b : Batch) :
  length (image_label_mask b) = length b /\
  Forall (fun row => length row = length b) (image_label_mask b) /\
  length (language_label_mask b) = length b /\
  Forall (fun row => length row = length b) (language_label_mask b).
Proof.
  assert (Hshape : forall index,
             length (label_mask index (length index)) = length index /\
             Forall (fun row => length row = length index)
                    (label_mask index (length index))).
  { intros index. rewrite label_mask_table. split.
    - now rewrite length_map, length_seq.
    - apply Forall_forall. intros row Hrow. apply in_map_iff in Hrow.
      destruct Hrow as (i & <- & _). now rewrite length_map, length_seq. }
  rewrite image_label_mask_eq, language_label_mask_eq.
  destruct (Hshape (image_label_index b)) as (H1 & H2).
  destruct (Hshape (language_label_index b)) as (H3 & H4).
  unfold image_label_index, language_label_index in *.
  rewrite !length_map in H1, H2, H3, H4. rewrite !length_map.
  repeat split; assumption.
Qed.

(** X2. The identity added on top never yields 2.0: every entry of either mask
    is 0.0 or 1.0. *)
Theorem mask_entries_binary (b : Batch) (i j : nat) (v : R) :
  Torch.entry (image_label_mask b) i j = Some v \/
  Torch.entry (language_label_mask b) i j = Some v ->
  v = 0%R \/ v = 1%R.
Proof.
  rewrite image_label_mask_eq, language_label_mask_eq, !entry_label_mask_full.
  intros [H|H];
    match type of H with
    | context [differ_plus_identity ?index _ _] =>
        destruct (Nat.ltb_spec i (length index)); simpl in H; try discriminate;
        destruct (Nat.ltb_spec j (length index)); simpl in H; try discriminate
    end;
    injection H as <-; now apply differ_plus_identity_binary.
Qed.

Lemma mask_entries_binary_witness :
  1%R = 0%R \/ 1%R = 1%R.
Proof.
  apply (mask_entries_binary Toy.batch 0 0). left.
  rewrite image_label_mask_eq, entry_label_mask by (simpl; lia).
  now rewrite differ_plus_identity_diag.
Defined.

(** X3. When all samples of a batch share one identifier, the branch has no
    negatives: its mask is the identity matrix. *)
Theorem uniform_ids_mask_is_identity (b : Batch) (v : Z) :
  (Forall (fun s => img_idx s = v) b ->
   image_label_mask b = Torch.eye (length b)) /\
  (Forall (fun s => label s = v) b ->
   language_label_mask b = Torch.eye (length b)).
Proof.
  assert (Huni : forall index, Forall (eq v) index ->
             label_mask index (length index) = Torch.eye (length index)).
  { intros index Hall. rewrite label_mask_table. unfold Torch.eye.
    apply map_ext_in. intros i Hi. apply map_ext_in. intros j Hj.
    apply in_seq in Hi, Hj. unfold differ_plus_identity.
    rewrite Forall_forall in Hall.
    rewrite <- (Hall (nth i index 0%Z)) by (apply nth_In; lia).
    rewrite <- (Hall (nth j index 0%Z)) by (apply nth_In; lia).
    rewrite Z.eqb_refl. unfold Torch.bool_to_float.
    destruct (Nat.eqb i j); lra. }
  rewrite image_label_mask_eq, language_label_mask_eq.
  split; intros Hall.
  - rewrite Huni; [unfold image_label_index; now rewrite length_map|].
    unfold image_label_index. apply Forall_map.
    eapply Forall_impl; [|exact Hall]. intros s Hs. now symmetry.
  - rewrite Huni; [unfold language_label_index; now rewrite length_map|].
    unfold language_label_index. apply Forall_map.
    eapply Forall_impl; [|exact Hall]. intros s Hs. now symmetry.
Qed.

Lemma uniform_ids_mask_is_identity_witness :
  image_label_mask Toy.batch = Torch.eye (length Toy.batch).
Proof.
  apply (uniform_ids_mask_is_identity Toy.batch 7%Z).
  repeat constructor.
Defined.

(** X4. When the identifiers of a branch are pairwise distinct, every pair is a
    negative: all entries of the mask are 1.0. *)
Theorem distinct_ids_mask_is_ones (b : Batch) (i j : nat) :
  (i < length b)%nat -> (j < length b)%nat ->
  (NoDup (image_label_index b) ->
   Torch.entry (image_label_mask b) i j = Some 1%R) /\
  (NoDup (language_label_index b) ->
   Torch.entry (language_label_mask b) i j = Some 1%R).
Proof.
  intros Hi Hj.
  assert (Hdis : forall index, length index = length b -> NoDup index ->
             Torch.entry (label_mask index (length index)) i j = Some 1%R).
  { intros index Hlen Hnd. rewrite entry_label_mask by lia. f_equal.
    unfold differ_plus_identity.
    destruct (Nat.eqb_spec i j) as [->|Hij].
    - rewrite Z.eqb_refl. lra.
    - destruct (Z.eqb_spec (nth i index 0%Z) (nth j index 0%Z)) as [Heq|]; [|lra].
      exfalso. apply Hij.
      apply (proj1 (NoDup_nth index 0%Z) Hnd); [lia | lia | exact Heq]. }
  rewrite image_label_mask_eq, language_label_mask_eq.
  split; apply Hdis; apply length_map.
Qed.

Lemma distinct_ids_mask_is_ones_witness :
  Torch.entry (language_label_mask Toy.batch) 0 1 = Some 1%R.
Proof.
  apply (distinct_ids_mask_is_ones Toy.batch (i := 0) (j := 1)).
  - simpl. lia.
  - simpl. lia.
  - repeat constructor; simpl; intuition discriminate.
Defined.

End MaskTables.

(** * Further properties of the zero-shot evaluator *)

Section EvaluatorEdges.

Context {W O G S C : Type}.
Context {FM : FieldModel W} {OPT : Optimizer W O G}
        {CLS : Classifier C} {MET : Metric S} {F : Functional}.

Local Abbreviation World := (@World W O G S).
Local Abbreviation Tracked := (@Tracked W).

Lemma iter_shift {A} (f : A -> A) n x : Nat.iter n f (f x) = f (Nat.iter n f x).
Proof. induction n as [|n IH]; simpl; [reflexivity | now rewrite IH]. Qed.

Lemma apply_metrics_count calcs probs labels (st : handle -> S) h :
  apply_metrics calcs probs labels st h =
  Nat.iter (count_occ Nat.eq_dec (Py.values calcs) h)
           (fun s => metric_forward s probs labels) (st h).
Proof.
  revert st. induction calcs as [|item rest IH]; intros st; simpl.
  - reflexivity.
  - rewrite IH. cbv beta.
    destruct (Nat.eq_dec (snd item) h) as [Heq|Hne].
    + rewrite Heq, Nat.eqb_refl.
      exact (iter_shift (fun s => metric_forward s probs labels) _ (st h)).
    + destruct (Nat.eqb_spec h (snd item)); [congruence | reflexivity].
Qed.

Lemma select_length_filter {A} (p : Z -> bool) (lli : list Z) (xs : list A) :
  length xs = length lli ->
  length (Torch.select (map p lli) xs) = length (filter p lli).
Proof.
  revert xs. induction lli as [|l lli IH]; intros [|x xs] Hlen; simpl in *;
    try reflexivity; try discriminate.
  destruct (p l); simpl; rewrite IH by lia; reflexivity.
Qed.

Lemma masked_labels_filter (c : C) lli :
  Torch.long (Torch.select (semseg_mask c lli) lli) = filter (valid_label c) lli.
Proof.
  unfold Torch.long. rewrite semseg_mask_map. apply select_map_filter.
Qed.

(** X5. Without calculators under "semantic" (missing key or empty dictionary)
    the evaluation changes nothing at all, whether it returns or raises. *)
Theorem zero_shot_eval_without_semantic_calculators
        (c : C) (pl pi : Tracked (Torch.matrix R)) lli
        (mc : MetricCalculators) (w : World) :
  @Py.get (Py.dict handle) "semantic" mc = None \/
  @Py.get (Py.dict handle) "semantic" mc = Some [] ->
  snd (zero_shot_eval c pl pi lli mc w) = w.
Proof.
  intros Hmc.
  assert (Hs : semantic_calculators mc = []).
  { unfold semantic_calculators. destruct Hmc as [Hmc | Hmc]; now rewrite Hmc. }
  rewrite zero_shot_eval_spec, Hs.
  destruct (negb _); [reflexivity|]. destruct (Nat.eqb _ _); [|reflexivity].
  destruct (cross_entropy _ _); [|reflexivity].
  simpl. apply set_metrics_same.
Qed.

(** X6. A classifier that does not return one row per sample makes the mask
    indexing fail: with a valid label in the batch the evaluation raises
    IndexError before any metric is touched, and so does the batch step. *)
Theorem zero_shot_eval_row_mismatch
        (c : C) (pl pi : Tracked (Torch.matrix R)) lli mc (w : World) :
  Exists (fun l => l <> -1 /\ l < total_label_classes c)%Z lli ->
  length (calculate_classifications c (value pl) (value pi)) <> length lli ->
  zero_shot_eval c pl pi lli mc w = (Raise IndexError, w).
Proof.
  intros Hex Hlen. apply any_semseg_mask_true in Hex.
  rewrite zero_shot_eval_spec, Hex, semseg_mask_length. simpl.
  destruct (Nat.eqb_spec (length lli)
              (length (calculate_classifications c (value pl) (value pi))));
    [congruence | reflexivity].
Qed.

(** X7. In an evaluation that returns, every metric object is called once for
    each name it is registered under in the "semantic" dictionary, always on
    the valid rows and the valid identifiers. *)
Theorem zero_shot_eval_metric_calls
        (c : C) (pl pi : Tracked (Torch.matrix R)) lli mc (w : World) (h : handle) :
  is_ok (fst (zero_shot_eval c pl pi lli mc w)) = true ->
  metrics (snd (zero_shot_eval c pl pi lli mc w)) h =
  Nat.iter (count_occ Nat.eq_dec (Py.values (semantic_calculators mc)) h)
           (fun s => metric_forward
                       s
                       (Torch.select (semseg_mask c lli)
                                     (calculate_classifications c (value pl) (value pi)))
                       (filter (valid_label c) lli))
           (metrics w h).
Proof.
  rewrite zero_shot_eval_spec.
  destruct (negb _); [discriminate|]. destruct (Nat.eqb _ _); [|discriminate].
  destruct (cross_entropy _ _); [|discriminate].
  intros _. cbn [snd metrics set_metrics]. rewrite apply_metrics_count.
  now rewrite masked_labels_filter.
Qed.

(** X8. The rows and the identifiers selected by the mask stay aligned, the
    identifiers that pass are never the sentinel and always below the number
    of classes, and a negative identifier other than -1 does pass. *)
Theorem masked_subset_aligned (c : C) (probs : Torch.matrix R) lli :
  length probs = length lli ->
  length (Torch.select (semseg_mask c lli) probs) =
  length (Torch.select (semseg_mask c lli) lli) /\
  Forall (fun l => l <> -1 /\ l < total_label_classes c)%Z
         (Torch.select (semseg_mask c lli) lli) /\
  (forall l, In l lli -> (l < -1)%Z -> (l < total_label_classes c)%Z ->
             In l (Torch.select (semseg_mask c lli) lli)).
Proof.
  intros Hlen. rewrite semseg_mask_map, select_map_filter.
  split; [|split].
  - now apply select_length_filter.
  - apply Forall_forall. intros l Hl. apply filter_In in Hl.
    now apply valid_label_iff.
  - intros l Hin Hneg Hlt. apply filter_In. split; [assumption|].
    apply valid_label_iff. lia.
Qed.

End EvaluatorEdges.

(** * Further properties of the batch loop *)

Section StepEdges.

Context {W O G S C : Type}.
Context {FM : FieldModel W} {OPT : Optimizer W O G}
        {CLS : Classifier C} {MET : Metric S} {F : Functional}.

Local Abbreviation World := (@World W O G S).

Lemma train_batch_ok_valid (c : C) args mc (b : Batch) acc (w : World) :
  is_ok (fst (train_batch c args mc b acc w)) = true ->
  Torch.any (semseg_mask c (language_label_index b)) = true /\
  grad_enabled w = true /\
  grad_enabled (snd (train_batch c args mc b acc w)) = true.
Proof.
  rewrite train_batch_spec.
  destruct (Torch.any _); [|discriminate]. simpl.
  destruct (negb (Nat.eqb _ _)); [discriminate|].
  destruct (cross_entropy _ _); [|discriminate].
  destruct (grad_enabled w) eqn:Eg; [|discriminate].
  simpl. auto.
Qed.



(** X11. [train] returns only if the loader yields a batch, gradient tracking is
    on, and every batch contains at least one valid label. *)
Theorem train_returns_only_with_valid_labels
        (c : C) args mc (loader : list Batch) epoch (w : World) :
  is_ok (fst (train loader epoch c args mc w)) = true ->
  loader <> [] /\
  grad_enabled w = true /\
  Forall (fun b => Exists (fun l => l <> -1 /\ l < total_label_classes c)%Z
                          (language_label_index b)) loader.
Proof.
  change (train loader epoch c args mc w)
    with (bind (for_fold loader (train_batch c args mc) initial_totals)
               (epoch_end mc) (snd (set_train_mode w))).
  unfold bind.
  destruct (for_fold loader (train_batch c args mc) initial_totals
                     (snd (set_train_mode w))) as [[acc|e] w1] eqn:E;
    [|discriminate].
  intros Hend.
  assert (Hne : loader <> []).
  { intros ->. simpl in E. injection E as <- <-.
    unfold epoch_end, bind in Hend. rewrite epoch_averages_spec in Hend.
    discriminate. }
  assert (Hall : forall (l : list Batch) acc0 (w0 : World),
             is_ok (fst (for_fold l (train_batch c args mc) acc0 w0)) = true ->
             l <> [] ->
             grad_enabled w0 = true /\
             Forall (fun b => Exists (fun l => l <> -1 /\ l < total_label_classes c)%Z
                                     (language_label_index b)) l).
  { induction l as [|b l IH]; intros acc0 w0 Hok Hl; [congruence|].
    simpl in Hok. unfold bind in Hok.
    destruct (train_batch c args mc b acc0 w0) as [[acc1|e1] w2] eqn:Eb;
      [|discriminate].
    assert (Hb : is_ok (fst (train_batch c args mc b acc0 w0)) = true)
      by now rewrite Eb.
    destruct (train_batch_ok_valid c args mc b acc0 w0 Hb) as (Hany & Hg & _).
    split; [assumption|]. constructor; [now apply any_semseg_mask_true|].
    destruct l as [|b' l']; [constructor|].
    apply (IH acc1 w2 Hok). discriminate. }
  destruct (Hall loader initial_totals (snd (set_train_mode w))) as (Hg & Hvalid);
    [now rewrite E | assumption |].
  auto.
Qed.


End StepEdges.

(** * The content of the epoch report *)

Section ReportEdges.

Context {W O G S C : Type}.
Context {FM : FieldModel W} {OPT : Optimizer W O G}
        {CLS : Classifier C} {MET : Metric S} {F : Functional}.

Local Abbreviation World := (@World W O G S).

(** X13. The report of a returning [train] holds each of the five averages under
    its key, unless a metric is registered under a name that maps to the same
    key; the value returned is the accumulated total. *)
Theorem report_holds_averages
        (c : C) args mc (loader : list Batch) epoch (w : World) :
  is_ok (fst (train loader epoch c args mc w)) = true ->
  let r1 := for_fold loader (train_batch c args mc) initial_totals
                     (snd (set_train_mode w)) in
  exists acc report,
    fst r1 = Ok acc /\
    fst (train loader epoch c args mc w) = Ok (total_loss acc) /\
    wandb_log (snd (train loader epoch c args mc w)) = wandb_log w ++ [report] /\
    forall k v,
      In (k, v) (average_entries acc (model (snd r1))) ->
      (forall name, In name (map fst (all_metrics mc)) -> metric_key name <> k) ->
      Py.get k report = Some v.
Proof.
  intros Hok r1.
  destruct (train_ok_inv c args mc loader epoch w Hok)
    as (acc & report & Hacc & _ & Hrep & Hret & Hlog & _).
  fold r1 in Hacc, Hrep.
  exists acc, report. repeat split; try assumption.
  intros k v Hin Hfree.
  assert (Hk : forall item, In item (all_metrics mc) -> metric_key (fst item) <> k).
  { intros item Hitem. apply Hfree. apply in_map_iff. now exists item. }
  rewrite (metric_loop_keeps_key (all_metrics mc) Hk _ _ Hrep).
  apply py_get_in_nodup; [apply average_entries_keys | assumption].
Qed.

(** X14. The value [train] returns is the sum over the batches; the reported
    "train_avg/loss_sum" is that value divided by the number of batches,
    whatever the batch sizes. *)
Theorem reported_loss_sum_is_total_over_batches
        (c : C) args mc (loader : list Batch) epoch (w : World) :
  is_ok (fst (train loader epoch c args mc w)) = true ->
  (forall name, In name (map fst (all_metrics mc)) -> name <> "loss_sum"%string) ->
  exists r report,
    fst (train loader epoch c args mc w) = Ok r /\
    wandb_log (snd (train loader epoch c args mc w)) = wandb_log w ++ [report] /\
    Py.get "train_avg/loss_sum" report = Some (r / INR (length loader))%R.
Proof.
  intros Hok Hfree.
  destruct (train_ok_inv c args mc loader epoch w Hok)
    as (acc & report & Hacc & Hn & Hrep & Hret & Hlog & _).
  exists (total_loss acc), report. repeat split; try assumption.
  assert (Hk : forall item, In item (all_metrics mc) ->
                             metric_key (fst item) <> "train_avg/loss_sum"%string).
  { intros item Hitem Heq.
    apply (Hfree (fst item)); [apply in_map_iff; now exists item|].
    now apply metric_key_inj. }
  rewrite (metric_loop_keeps_key (all_metrics mc) Hk _ _ Hrep).
  simpl. now rewrite Hn.
Qed.

(** X15. With distinct names and distinct metric objects, the report holds for
    each metric its value at the end of the batch loop, or 0.0 when reading
    it raises a RuntimeError. *)
Theorem report_records_each_metric
        (c : C) args mc (loader : list Batch) epoch (w : World) :
  (forall s e, metric_compute s = Raise e -> is_RuntimeError e = true) ->
  NoDup (map fst (all_metrics mc)) ->
  NoDup (map snd (all_metrics mc)) ->
  is_ok (fst (train loader epoch c args mc w)) = true ->
  let r1 := for_fold loader (train_batch c args mc) initial_totals
                     (snd (set_train_mode w)) in
  exists report,
    wandb_log (snd (train loader epoch c args mc w)) = wandb_log w ++ [report] /\
    forall name h,
      In (name, h) (all_metrics mc) ->
      Py.get (metric_key name) report = Some (metric_reading (metrics (snd r1) h)).
Proof.
  intros Hrt Hnames Hhandles Hok r1.
  destruct (train_ok_inv c args mc loader epoch w Hok)
    as (acc & report & _ & _ & Hrep & _ & Hlog & _).
  fold r1 in Hrep.
  exists report. split; [assumption|].
  intros name h Hin.
  eapply metric_loop_readings; eassumption.
Qed.

(** X16. A metric whose read raises anything but a RuntimeError stops the epoch
    end: the exception leaves [epoch_end], that metric and the later ones
    are not reset, and no report is logged. *)
Theorem metric_read_other_error_propagates
        mc acc (w : World) (pre post : list (string * handle)) name h e to_log1 :
  total_samples acc <> 0%nat ->
  all_metrics mc = pre ++ (name, h) :: post ->
  let r1 := for_fold pre log_metric (average_entries acc (model w)) w in
  fst r1 = Ok to_log1 ->
  metric_compute (metrics (snd r1) h) = Raise e ->
  is_RuntimeError e = false ->
  epoch_end mc acc w = (Raise e, snd r1) /\
  wandb_log (snd r1) = wandb_log w.
Proof.
  intros Hn Hall r1 Hpre Hraise Hother. split.
  - unfold epoch_end, bind. rewrite epoch_averages_spec.
    apply Nat.eqb_neq in Hn. rewrite Hn, log_metrics_flat, Hall, for_fold_app.
    fold (average_entries acc (model w)). unfold bind. fold r1.
    destruct r1 as [o1 w1]. simpl in Hpre, Hraise |- *. subst o1.
    unfold bind. rewrite log_metric_spec. simpl. now rewrite Hraise, Hother.
  - subst r1. apply metric_loop_log_frame.
Qed.




End ReportEdges.

(** * Metric objects across an epoch *)

Section MetricObjects.

Context {W O G S C : Type}.
Context {FM : FieldModel W} {OPT : Optimizer W O G}
        {CLS : Classifier C} {MET : Metric S} {F : Functional}.

Local Abbreviation World := (@World W O G S).

Lemma train_batch_metric_frame (c : C) args mc (b : Batch) acc (w : World) h :
  ~ In h (Py.values (semantic_calculators mc)) ->
  metrics (snd (train_batch c args mc b acc w)) h = metrics w h.
Proof.
  intros Hh. rewrite train_batch_spec.
  destruct (negb (Torch.any _)); [reflexivity|].
  destruct (negb (Nat.eqb _ _)); [reflexivity|].
  destruct (cross_entropy _ _); [|reflexivity].
  destruct (negb (grad_enabled w)); simpl; now apply apply_metrics_frame.
Qed.

Lemma batch_loop_metric_frame (c : C) args mc (loader : list Batch) acc (w : World) h :
  ~ In h (Py.values (semantic_calculators mc)) ->
  metrics (snd (for_fold loader (train_batch c args mc) acc w)) h = metrics w h.
Proof.
  intros Hh.
  apply (@for_fold_preserves _ _ _ (fun w' : World => metrics w' h = metrics w h)
                             (train_batch c args mc)); [|reflexivity].
  intros b acc0 w0 H. now rewrite train_batch_metric_frame.
Qed.

(** X18. A metric object that is not registered under "semantic" is never
    updated during the epoch: with distinct names and objects, what the
    report holds for it is read from the state it had before [train]. *)
Theorem other_metric_reports_state_before_epoch
        (c : C) args mc (loader : list Batch) epoch (w : World) name h :
  (forall s e, metric_compute s = Raise e -> is_RuntimeError e = true) ->
  NoDup (map fst (all_metrics mc)) ->
  NoDup (map snd (all_metrics mc)) ->
  is_ok (fst (train loader epoch c args mc w)) = true ->
  In (name, h) (all_metrics mc) ->
  ~ In h (Py.values (semantic_calculators mc)) ->
  exists report,
    wandb_log (snd (train loader epoch c args mc w)) = wandb_log w ++ [report] /\
    Py.get (metric_key name) report = Some (metric_reading (metrics w h)).
Proof.
  intros Hrt Hnames Hhandles Hok Hin Hh.
  destruct (train_ok_inv c args mc loader epoch w Hok)
    as (acc & report & _ & _ & Hrep & _ & Hlog & _).
  exists report. split; [assumption|].
  erewrite metric_loop_readings by eassumption.
  now rewrite batch_loop_metric_frame.
Qed.

(** X19. A metric object registered under two names is read twice: the second
    read sees the state left by the reset that followed the first. *)
Theorem aliased_metric_read_after_reset
        (c : C) args mc (loader : list Batch) epoch (w : World)
        (pre post : list (string * handle)) name h :
  (forall s e, metric_compute s = Raise e -> is_RuntimeError e = true) ->
  is_ok (fst (train loader epoch c args mc w)) = true ->
  all_metrics mc = pre ++ (name, h) :: post ->
  In h (map snd pre) ->
  ~ In name (map fst post) ->
  exists report s,
    wandb_log (snd (train loader epoch c args mc w)) = wandb_log w ++ [report] /\
    Py.get (metric_key name) report = Some (metric_reading (metric_reset s)).
Proof.
  intros Hrt Hok Hall Hpre Hpost.
  destruct (train_ok_inv c args mc loader epoch w Hok)
    as (acc & report & _ & _ & Hrep & _ & Hlog & _).
  revert Hrep. rewrite Hall, for_fold_app. unfold bind.
  match goal with |- context [for_fold pre log_metric ?tl ?w1] =>
    destruct (metric_loop_spec pre Hrt tl w1) as (tl1 & st1 & -> & Hreset & _)
  end.
  destruct (Hreset h Hpre) as (s & Hs).
  simpl. unfold bind. rewrite (metric_reading_total _ _ _ Hrt).
  intros Hrep. exists report, s. split; [assumption|].
  assert (Hk : forall item, In item post ->
                            metric_key (fst item) <> metric_key name).
  { intros item Hitem Heq. apply metric_key_inj in Heq. apply Hpost.
    apply in_map_iff. exists item. auto. }
  rewrite (metric_loop_keeps_key post Hk _ _ Hrep). simpl.
  rewrite py_get_set. simpl. now rewrite Hs.
Qed.

End MetricObjects.

(** * Checkpoints and the training loop *)

Section DriverProperties.

Context {W O G S C : Type}.
Context {FM : FieldModel W} {OPT : Optimizer W O G}
        {CLS : Classifier C} {MET : Metric S} {F : Functional} {WR : Wrapper W}
        {ST : Storage}.

Local Abbreviation World := (@World W O G S).
Local Abbreviation Session := (@Session W O G S).

Lemma py_set_set {V} k (v1 v2 : V) d :
  Py.set k v2 (Py.set k v1 d) = Py.set k v2 d.
Proof.
  induction d as [|[k0 v0] d IH]; simpl.
  - now rewrite String.eqb_refl.
  - destruct (String.eqb k k0) eqn:E; simpl.
    + now rewrite String.eqb_refl.
    + now rewrite E, IH.
Qed.

Lemma py_set_length {V} k (v : V) d :
  length (Py.set k v d) =
  match Py.get k d with
  | Some _ => length d
  | None => Datatypes.S (length d)
  end.
Proof.
  induction d as [|[k0 v0] d IH]; simpl; [reflexivity|].
  destruct (String.eqb k k0); simpl; [reflexivity|].
  rewrite IH. destruct (Py.get k d); reflexivity.
Qed.

Lemma in_world_spec {A} (m : M World A) (s : Session) :
  in_world m s = (fst (m (world s)), mkSession (snd (m (world s))) (files s)).
Proof. unfold in_world. destruct (m (world s)); reflexivity. Qed.

Lemma save_default_spec epoch dir (s : Session) :
  save epoch dir false s =
  match torch_save_error (checkpoint_file dir) with
  | Some e => (Raise e, s)
  | None =>
      (Ok 0%Z,
       mkSession (world s)
                 (Py.set (checkpoint_file dir)
                         (mkCheckpoint (state_dict (model (world s)))
                                       (optim_state (world s)) epoch)
                         (files s)))
  end.
Proof. reflexivity. Qed.

(** What one turn of the loop does, case by case. *)
Lemma training_turn_spec loader (c : C) mc k e (s : Session) :
  let r := train (loader e) e c default_args mc (world s) in
  training_turn loader c mc k e s =
  match fst r with
  | Raise x => (Raise x, mkSession (snd r) (files s))
  | Ok _ =>
      if Z.eqb k 0 then (Raise ZeroDivisionError, mkSession (snd r) (files s))
      else if Z.eqb ((e + 1) mod k) 0
      then match torch_save_error (checkpoint_file SAVE_DIRECTORY) with
           | Some x => (Raise x, mkSession (snd r) (files s))
           | None =>
               (Ok (e + 1)%Z,
                mkSession (snd r)
                          (Py.set (checkpoint_file SAVE_DIRECTORY)
                                  (mkCheckpoint (state_dict (model (snd r)))
                                                (optim_state (snd r)) (e + 1))
                                  (files s)))
           end
      else (Ok (e + 1)%Z, mkSession (snd r) (files s))
  end.
Proof.
  intros r. unfold training_turn, bind. rewrite in_world_spec. fold r.
  destruct (fst r) as [v|x]; [|reflexivity].
  unfold lift, py_mod. destruct (Z.eqb k 0); [reflexivity|].
  destruct (Z.eqb ((e + 1) mod k) 0); [|reflexivity].
  rewrite save_default_spec.
  destruct (torch_save_error (checkpoint_file SAVE_DIRECTORY)); reflexivity.
Qed.

Lemma training_turn_epoch loader (c : C) mc k e (s : Session) e' :
  fst (training_turn loader c mc k e s) = Ok e' -> e' = (e + 1)%Z.
Proof.
  rewrite training_turn_spec. simpl.
  destruct (fst (train _ _ _ _ _ _)); [|discriminate].
  destruct (Z.eqb k 0); [discriminate|].
  destruct (Z.eqb _ 0); [destruct (torch_save_error _)|]; simpl; congruence.
Qed.

Lemma training_turn_no_save loader (c : C) mc k e (s : Session) :
  k = 0%Z \/ ((e + 1) mod k <> 0)%Z ->
  files (snd (training_turn loader c mc k e s)) = files s.
Proof.
  intros Hk. rewrite training_turn_spec. simpl.
  destruct (fst (train _ _ _ _ _ _)); [|reflexivity].
  destruct (Z.eqb_spec k 0); [reflexivity|].
  destruct (Z.eqb_spec ((e + 1) mod k) 0); [|reflexivity].
  destruct Hk; contradiction.
Qed.

Lemma turns_snoc count loader (c : C) mc k e (s : Session) :
  turns (Datatypes.S count) loader c mc k e s =
  bind (turns count loader c mc k e) (training_turn loader c mc k) s.
Proof.
  revert e s. induction count as [|count IH]; intros e s.
  - simpl. unfold bind, ret.
    destruct (training_turn loader c mc k e s) as [[e'|x] s1]; reflexivity.
  - change (turns (Datatypes.S (Datatypes.S count)) loader c mc k e s)
      with (bind (training_turn loader c mc k e)
                 (turns (Datatypes.S count) loader c mc k) s).
    change (turns (Datatypes.S count) loader c mc k e)
      with (bind (training_turn loader c mc k e) (turns count loader c mc k)).
    unfold bind.
    destruct (training_turn loader c mc k e s) as [[e'|x] s1]; [|reflexivity].
    rewrite IH. reflexivity.
Qed.

Lemma turns_epoch count loader (c : C) mc k e (s : Session) e' :
  fst (turns count loader c mc k e s) = Ok e' -> e' = (e + Z.of_nat count)%Z.
Proof.
  revert e s. induction count as [|count IH]; intros e s; simpl.
  - intros [= <-]. lia.
  - unfold bind.
    destruct (training_turn loader c mc k e s) as [[e1|x] s1] eqn:E;
      [|discriminate].
    intros H. apply IH in H.
    apply (f_equal fst) in E. apply training_turn_epoch in E. lia.
Qed.

(** With enough fuel the [while] loop is the row of its turns. *)
Lemma training_loop_turns fuel loader (c : C) mc n k e (s : Session) :
  (Z.to_nat (n + 1 - e) <= fuel)%nat ->
  training_loop fuel loader c mc n k e s =
  (match fst (turns (Z.to_nat (n + 1 - e)) loader c mc k e s) with
   | Ok e' => Ok (Some e')
   | Raise x => Raise x
   end,
   snd (turns (Z.to_nat (n + 1 - e)) loader c mc k e s)).
Proof.
  revert e s. induction fuel as [|fuel IH]; intros e s Hfuel.
  - destruct (Z.leb_spec e n) as [Hle|Hgt]; [lia|].
    simpl. destruct (Z.leb_spec e n); [lia|].
    replace (Z.to_nat (n + 1 - e)) with 0%nat by lia. reflexivity.
  - simpl. destruct (Z.leb_spec e n) as [Hle|Hgt].
    + replace (Z.to_nat (n + 1 - e))
        with (Datatypes.S (Z.to_nat (n + 1 - (e + 1)))) in * by lia.
      simpl. unfold bind.
      destruct (training_turn loader c mc k e s) as [[e'|x] s1] eqn:E;
        [|reflexivity].
      assert (He : e' = (e + 1)%Z)
        by (apply (training_turn_epoch loader c mc k e s); now rewrite E).
      subst e'. apply IH. lia.
    + replace (Z.to_nat (n + 1 - e)) with 0%nat by lia. reflexivity.
Qed.



(** X20. Enough fuel: the loop never stops for lack of it, and more fuel changes
    nothing.  It is enough to provide for NUM_EPOCHS + 1 - epoch turns. *)
Theorem training_loop_fuel_enough
        fuel1 fuel2 loader (c : C) mc n k e (s : Session) :
  (Z.to_nat (n + 1 - e) <= fuel1)%nat ->
  (Z.to_nat (n + 1 - e) <= fuel2)%nat ->
  training_loop fuel1 loader c mc n k e s = training_loop fuel2 loader c mc n k e s /\
  fst (training_loop fuel1 loader c mc n k e s) <> Ok None.
Proof.
  intros H1 H2. rewrite !training_loop_turns by assumption.
  split; [reflexivity|]. simpl.
  destruct (fst (turns _ _ _ _ _ _ _)); discriminate.
Qed.


(** X22. The last epoch is saved only when NUM_EPOCHS + 1 is a multiple of
    SAVE_EVERY: otherwise the files after the loop are those after a loop
    with one epoch less. *)
Theorem last_epoch_saved_only_on_multiple
        fuel loader (c : C) mc n k (s : Session) :
  (0 <= n)%Z ->
  (Z.to_nat (n + 1) <= fuel)%nat ->
  k = 0%Z \/ ((n + 1) mod k <> 0)%Z ->
  files (snd (training_loop fuel loader c mc n k 0 s)) =
  files (snd (training_loop fuel loader c mc (n - 1) k 0 s)).
Proof.
  intros Hn Hfuel Hk.
  rewrite !training_loop_turns by lia. simpl.
  replace (Z.to_nat (n + 1 - 0)) with (Datatypes.S (Z.to_nat (n - 1 + 1 - 0))) by lia.
  rewrite turns_snoc. unfold bind.
  destruct (turns (Z.to_nat (n - 1 + 1 - 0)) loader c mc k 0 s)
    as [[e1|x] s1] eqn:E; [|reflexivity].
  assert (He : e1 = n).
  { pose proof (turns_epoch _ loader c mc k 0%Z s (f_equal fst E)) as He. lia. }
  subst e1. simpl. now apply training_turn_no_save.
Qed.

(** X23. When NUM_EPOCHS + 1 is a multiple of SAVE_EVERY and the loop returns,
    the checkpoint file holds the final parameters, the final optimizer
    state and epoch = NUM_EPOCHS + 1. *)
Theorem final_checkpoint_on_multiple
        fuel loader (c : C) mc n k (s : Session) :
  (0 <= n)%Z ->
  (Z.to_nat (n + 1) <= fuel)%nat ->
  k <> 0%Z ->
  ((n + 1) mod k = 0)%Z ->
  is_ok (fst (training_loop fuel loader c mc n k 0 s)) = true ->
  let s' := snd (training_loop fuel loader c mc n k 0 s) in
  Py.get (checkpoint_file SAVE_DIRECTORY) (files s') =
  Some (mkCheckpoint (state_dict (model (world s'))) (optim_state (world s'))
                     (n + 1)).
Proof.
  intros Hn Hfuel Hk Hmod.
  rewrite !training_loop_turns by lia. simpl.
  replace (Z.to_nat (n + 1 - 0)) with (Datatypes.S (Z.to_nat n)) by lia.
  rewrite turns_snoc. unfold bind.
  destruct (turns (Z.to_nat n) loader c mc k 0 s) as [[e1|x] s1] eqn:E;
    [|discriminate].
  assert (He : e1 = n).
  { pose proof (turns_epoch _ loader c mc k 0%Z s (f_equal fst E)) as He. lia. }
  subst e1. rewrite training_turn_spec. simpl.
  destruct (fst (train (loader n) n c default_args mc (world s1)));
    [|discriminate].
  destruct (Z.eqb_spec k 0); [contradiction|].
  rewrite Hmod. simpl.
  destruct (torch_save_error (checkpoint_file SAVE_DIRECTORY)); [discriminate|].
  simpl. intros _. apply py_get_set.
Qed.

Lemma training_turn_files loader (c : C) mc k e (s0 s : Session) :
  let fixed := checkpoint_file SAVE_DIRECTORY in
  let bound := match Py.get fixed (files s0) with
               | Some _ => length (files s0)
               | None => Datatypes.S (length (files s0))
               end in
  ((forall path, path <> fixed ->
                 Py.get path (files s) = Py.get path (files s0)) /\
   (files s = files s0 \/
    (Py.get fixed (files s) <> None /\ length (files s) = bound))) ->
  let s' := snd (training_turn loader c mc k e s) in
  (forall path, path <> fixed ->
                Py.get path (files s') = Py.get path (files s0)) /\
  (files s' = files s0 \/
   (Py.get fixed (files s') <> None /\ length (files s') = bound)).
Proof.
  intros fixed bound (Hframe & Hlen) s'. subst s'.
  rewrite training_turn_spec. simpl.
  destruct (fst (train _ _ _ _ _ _)); [|auto].
  destruct (Z.eqb k 0); [auto|].
  destruct (Z.eqb _ 0); [|auto].
  destruct (torch_save_error (checkpoint_file SAVE_DIRECTORY)); [auto|].
  simpl. split.
  - intros path Hpath. rewrite py_get_set_other by assumption. now apply Hframe.
  - right. fold fixed. rewrite py_get_set. split; [discriminate|].
    rewrite py_set_length.
    destruct Hlen as [->|(Hsome & Hl)]; [reflexivity|].
    destruct (Py.get fixed (files s)); [assumption | contradiction].
Qed.

(** X24. However many epochs are trained, the loop writes one file only: every
    other path keeps its content and the number of files grows by at most
    one. *)
Theorem checkpoints_never_accumulate
        fuel loader (c : C) mc n k e (s : Session) :
  let s' := snd (training_loop fuel loader c mc n k e s) in
  (forall path, path <> checkpoint_file SAVE_DIRECTORY ->
                Py.get path (files s') = Py.get path (files s)) /\
  (length (files s') <= Datatypes.S (length (files s)))%nat /\
  (Py.get (checkpoint_file SAVE_DIRECTORY) (files s) <> None ->
   length (files s') = length (files s)).
Proof.
  assert (Hinv : forall fuel0 e0 (s1 : Session),
             let fixed := checkpoint_file SAVE_DIRECTORY in
             let bound := match Py.get fixed (files s) with
                          | Some _ => length (files s)
                          | None => Datatypes.S (length (files s))
                          end in
             ((forall path, path <> fixed ->
                            Py.get path (files s1) = Py.get path (files s)) /\
              (files s1 = files s \/
               (Py.get fixed (files s1) <> None /\ length (files s1) = bound))) ->
             let s' := snd (training_loop fuel0 loader c mc n k e0 s1) in
             (forall path, path <> fixed ->
                           Py.get path (files s') = Py.get path (files s)) /\
             (files s' = files s \/
              (Py.get fixed (files s') <> None /\ length (files s') = bound))).
  { induction fuel0 as [|fuel0 IH]; intros e0 s1 fixed bound H; simpl.
    - destruct (Z.leb e0 n); exact H.
    - destruct (Z.leb e0 n); [|exact H]. unfold bind.
      pose proof (training_turn_files loader c mc k e0 s s1 H) as Hturn.
      destruct (training_turn loader c mc k e0 s1) as [[e1|x] s2];
        [|exact Hturn].
      apply IH. exact Hturn. }
  intros s'. subst s'.
  destruct (Hinv fuel e s) as (Hframe & Hlen); [split; auto|].
  split; [exact Hframe|].
  destruct Hlen as [->|(_ & Hl)].
  - split; [lia | reflexivity].
  - rewrite Hl.
    destruct (Py.get (checkpoint_file SAVE_DIRECTORY) (files s)).
    + split; [lia | reflexivity].
    + split; [lia | intros Hc; contradiction].
Qed.

(** X25. [save] writes to a path that does not depend on the epoch: a second save
    replaces the first, and saving never changes the model or the
    optimizer.  When [torch.save] can write the file, [save] returns 0 and
    the file holds the parameters, the optimizer state and the epoch; when
    it cannot (the directory is missing), [save] raises its exception and
    no file changes. *)
Theorem save_overwrites epoch1 epoch2 dir (s : Session) :
  save epoch2 dir false (snd (save epoch1 dir false s)) = save epoch2 dir false s /\
  (forall flag, world (snd (save epoch1 dir flag s)) = world s) /\
  (torch_save_error (checkpoint_file dir) = None ->
   fst (save epoch1 dir false s) = Ok 0%Z /\
   Py.get (checkpoint_file dir) (files (snd (save epoch1 dir false s))) =
   Some (mkCheckpoint (state_dict (model (world s))) (optim_state (world s))
                      epoch1)) /\
  (forall e, torch_save_error (checkpoint_file dir) = Some e ->
             save epoch1 dir false s = (Raise e, s)).
Proof.
  split; [|split; [|split]].
  - rewrite !save_default_spec.
    destruct (torch_save_error (checkpoint_file dir)); [reflexivity|].
    simpl. now rewrite py_set_set.
  - intros flag. unfold save.
    destruct (if flag then module (model (world s)) else Ok (model (world s)));
      [|reflexivity].
    destruct (torch_save_error (checkpoint_file dir)); reflexivity.
  - intros Hdir. rewrite save_default_spec, Hdir. simpl.
    split; [reflexivity | apply py_get_set].
  - intros e Hdir. now rewrite save_default_spec, Hdir.
Qed.

End DriverProperties.

(** * The further statements on the concrete instance *)

Section ToyFurther.

Import Toy.




Lemma zero_shot_eval_without_semantic_calculators_witness :
  snd (zero_shot_eval 2%Z label_latents image_latents
                      (language_label_index batch) geometric_only world) = world.
Proof.
  apply (zero_shot_eval_without_semantic_calculators
           2%Z label_latents image_latents (language_label_index batch)
           geometric_only world).
  left. reflexivity.
Defined.

Lemma zero_shot_eval_row_mismatch_witness :
  zero_shot_eval 2%Z label_latents image_latents [0%Z] calculators world =
  (Raise IndexError, world).
Proof.
  apply zero_shot_eval_row_mismatch.
  - left. simpl. lia.
  - simpl. lia.
Defined.

Lemma zero_shot_eval_metric_calls_witness :
  metrics (snd (zero_shot_eval 2%Z label_latents image_latents
                               (language_label_index batch) aliased_calculators
                               world))
          1%nat = 2%nat.
Proof.
  rewrite zero_shot_eval_metric_calls by reflexivity.
  reflexivity.
Defined.

Lemma masked_subset_aligned_witness :
  length (Torch.select (semseg_mask 2%Z [0; -1; -2]%Z)
                       [[1%R]; [1%R]; [1%R]]) =
  length (Torch.select (semseg_mask 2%Z [0; -1; -2]%Z) [0; -1; -2]%Z).
Proof.
  apply (masked_subset_aligned 2%Z [[1%R]; [1%R]; [1%R]] [0; -1; -2]%Z).
  reflexivity.
Defined.


Lemma train_returns_only_with_valid_labels_witness :
  [batch] <> [] /\
  grad_enabled world = true /\
  Forall (fun b => Exists (fun l => l <> -1 /\ l < total_label_classes 2%Z)%Z
                          (language_label_index b)) [batch].
Proof.
  apply (train_returns_only_with_valid_labels
           2%Z default_args calculators [batch] 0%Z world).
  reflexivity.
Defined.


Lemma report_holds_averages_witness :
  exists acc report,
    fst (train [batch] 0%Z 2%Z default_args calculators world) = Ok (total_loss acc) /\
    wandb_log (snd (train [batch] 0%Z 2%Z default_args calculators world)) =
    wandb_log world ++ [report].
Proof.
  edestruct report_holds_averages
    with (c := 2%Z) (args := default_args) (mc := calculators)
         (loader := [batch]) (epoch := 0%Z) (w := world)
    as (acc & report & _ & Hret & Hlog & _); [reflexivity|].
  exists acc, report. split; assumption.
Defined.

Lemma reported_loss_sum_is_total_over_batches_witness :
  exists r report,
    fst (train [batch; batch] 0%Z 2%Z default_args calculators world) = Ok r /\
    wandb_log (snd (train [batch; batch] 0%Z 2%Z default_args calculators world)) =
    wandb_log world ++ [report] /\
    Py.get "train_avg/loss_sum" report = Some (r / INR 2)%R.
Proof.
  apply (reported_loss_sum_is_total_over_batches
           2%Z default_args calculators [batch; batch] 0%Z world).
  - reflexivity.
  - simpl. intuition (subst; discriminate).
Defined.

Lemma report_records_each_metric_witness :
  exists report,
    wandb_log (snd (train [batch] 0%Z 2%Z default_args calculators world)) =
    wandb_log world ++ [report] /\
    Py.get (metric_key "semantic_accuracy_micro") report = Some (INR 1) /\
    Py.get (metric_key "geometric_accuracy") report = Some 0%R.
Proof.
  destruct (report_records_each_metric 2%Z default_args calculators [batch] 0%Z
              world toy_compute_runtime_only) as (report & Hlog & Hread).
  - simpl. repeat constructor; simpl; intuition discriminate.
  - simpl. repeat constructor; simpl; intuition discriminate.
  - reflexivity.
  - exists report. split; [exact Hlog|]. split.
    + apply (Hread "semantic_accuracy_micro"%string 1%nat). simpl. auto.
    + apply (Hread "geometric_accuracy"%string 0%nat). simpl. auto.
Defined.

Lemma metric_read_other_error_propagates_witness :
  @epoch_end unit nat R nat brittle_metric calculators
             (mkTotals 0 0 0 1 0) world =
  (Raise (OtherError "state is not synchronised"), world).
Proof.
  apply (@metric_read_other_error_propagates
           unit nat R nat brittle_metric calculators (mkTotals 0 0 0 1 0) world
           [] [("semantic_accuracy_micro"%string, 1%nat)]
           "geometric_accuracy"%string 0%nat
           (OtherError "state is not synchronised")
           (average_entries (mkTotals 0 0 0 1 0) (model world)));
    try reflexivity.
  simpl. lia.
Defined.


Lemma training_loop_fuel_enough_witness :
  training_cell 6 loader 2%Z calculators session =
  training_cell 9 loader 2%Z calculators session /\
  fst (training_cell 6 loader 2%Z calculators session) <> Ok None.
Proof.
  unfold training_cell. apply training_loop_fuel_enough; simpl; lia.
Defined.


Lemma last_epoch_saved_only_on_multiple_witness :
  files (snd (training_cell 6 loader 2%Z calculators session)) =
  files (snd (training_loop 6 loader 2%Z calculators 4 SAVE_EVERY 0 session)).
Proof.
  unfold training_cell.
  change 4%Z with (NUM_EPOCHS - 1)%Z.
  apply last_epoch_saved_only_on_multiple.
  - unfold NUM_EPOCHS. lia.
  - simpl. lia.
  - right. discriminate.
Defined.

Lemma final_checkpoint_on_multiple_witness :
  option_map (@ckpt_epoch unit nat)
    (Py.get (checkpoint_file SAVE_DIRECTORY)
            (files (snd (training_loop 5 loader 2%Z calculators 4 SAVE_EVERY 0
                                       session)))) = Some 5%Z.
Proof.
  rewrite final_checkpoint_on_multiple.
  - reflexivity.
  - lia.
  - simpl. lia.
  - discriminate.
  - reflexivity.
  - reflexivity.
Defined.

Lemma checkpoints_never_accumulate_witness :
  (length (files (snd (training_cell 6 loader 2%Z calculators session))) <= 1)%nat.
Proof.
  unfold training_cell. apply checkpoints_never_accumulate.
Defined.

Lemma save_overwrites_witness :
  fst (save 5%Z SAVE_DIRECTORY false session) = Ok 0%Z /\
  option_map (@ckpt_epoch unit nat)
    (Py.get (checkpoint_file SAVE_DIRECTORY)
            (files (snd (save 5%Z SAVE_DIRECTORY false session)))) = Some 5%Z /\
  save 5%Z "missing" false session =
  (Raise (RuntimeError "Parent directory does not exist."), session).
Proof.
  destruct (save_overwrites 5%Z 5%Z SAVE_DIRECTORY session)
    as (_ & _ & Hwritten & _).
  destruct (Hwritten eq_refl) as (Hret & Hfile).
  destruct (save_overwrites 5%Z 5%Z "missing" session)
    as (_ & _ & _ & Hraise).
  split; [exact Hret|]. split; [now rewrite Hfile|].
  apply Hraise. reflexivity.
Defined.

Lemma other_metric_reports_state_before_epoch_witness :
  exists report,
    wandb_log (snd (train [batch] 0%Z 2%Z default_args calculators world)) =
    wandb_log world ++ [report] /\
    Py.get (metric_key "geometric_accuracy") report =
    Some (metric_reading (metrics world 0%nat)).
Proof.
  apply (other_metric_reports_state_before_epoch
           2%Z default_args calculators [batch] 0%Z world
           "geometric_accuracy"%string 0%nat toy_compute_runtime_only).
  - simpl. repeat constructor; simpl; intuition discriminate.
  - simpl. repeat constructor; simpl; intuition discriminate.
  - reflexivity.
  - simpl. auto.
  - simpl. lia.
Defined.

Lemma aliased_metric_read_after_reset_witness :
  exists report s,
    wandb_log (snd (train [batch] 0%Z 2%Z default_args aliased_calculators world)) =
    wandb_log world ++ [report] /\
    Py.get (metric_key "second") report = Some (metric_reading (metric_reset s)).
Proof.
  apply (aliased_metric_read_after_reset
           2%Z default_args aliased_calculators [batch] 0%Z world
           [("first"%string, 1%nat)] [] "second"%string 1%nat
           toy_compute_runtime_only).
  - reflexivity.
  - reflexivity.
  - simpl. auto.
  - simpl. auto.
Defined.

End ToyFurther.
